(** * Firestorm Cards stock monitor: change detection, batching, snapshot

    A shallow embedding of [firestorm_monitor.py]: the snapshot store
    ([load_known_products], [save_known_products]), the classification loop
    of [main], the message builder [send_discord_notification] and the
    cycle [main] itself.

    What is outside the embedding, and how it enters:
    - [get_all_products] (HTTP and HTML scraping) supplies [main] with the
      list of product dicts; here that list is the argument
      [current_products].  Each dict is built by the literal of lines 65-72,
      with the six keys [title], [sku], [url], [stock_qty], [price], [image]
      (strings, and an [int] for [stock_qty]).
    - [requests.post] and [raise_for_status] are the oracle [post]: [true]
      when the message was delivered, [false] when an exception was raised
      inside the [try] block.
    - [os.getenv] and [datetime.utcnow] are the values [DISCORD_WEBHOOK]
      and [utcnow].
    - The file [firestorm_products.json] is a [file_state]; writing it is
      taken to succeed, and console output is left out. *)

From Stdlib Require Import ZArith Lia.
From stdpp Require Import base option list strings pretty gmap fin_maps sorting.

Local Open Scope string_scope.
Local Open Scope list_scope.
Local Open Scope nat_scope.

(** ** Python values and dicts *)

(** The values found in a product dict and in the decoded JSON file:
    integers, strings and [None] (JSON [null]).  Floats, booleans and nested
    values, which the program never writes, are left out. *)
Inductive value :=
  | VInt (z : Z)
  | VStr (s : string)
  | VNone.

#[global] Instance value_eq_dec : EqDecision value.
Proof. solve_decision. Defined.

(** A dict with string keys, as [json.load] returns for each stored record. *)
Abbreviation pydict := (gmap string value).

(** [d.get(k, dflt)] *)
Definition dict_get (d : pydict) (k : string) (dflt : value) : value :=
  default dflt (d !! k).

(** [str(v)], as used by an f-string. *)
Definition py_str (v : value) : string :=
  match v with
  | VInt z => pretty z
  | VStr s => s
  | VNone => "None"
  end.

(** ** Exceptions *)

Inductive exn := TypeError.

Inductive result (A : Type) :=
  | Ok (a : A)
  | Raise (e : exn).
Arguments Ok {A} a.
Arguments Raise {A} e.

#[global] Instance result_ret : MRet result := λ A a, Ok a.
#[global] Instance result_bind : MBind result := λ A B f m,
  match m with
  | Ok a => f a
  | Raise e => Raise e
  end.

(** [v == z] for an integer literal [z]: a string or [None] is not equal to
    an integer, and the comparison does not raise. *)
Definition py_eq_int (v : value) (z : Z) : bool :=
  match v with
  | VInt x => bool_decide (x = z)
  | VStr _ | VNone => false
  end.

(** [n > v] for an integer [n]: ordering an [int] against a [str] or [None]
    raises [TypeError]. *)
Definition int_gt (n : Z) (v : value) : result bool :=
  match v with
  | VInt x => Ok (bool_decide (x < n)%Z)
  | VStr _ | VNone => Raise TypeError
  end.

(** [v > z] for an integer literal [z]. *)
Definition gt_int (v : value) (z : Z) : result bool :=
  match v with
  | VInt x => Ok (bool_decide (z < x)%Z)
  | VStr _ | VNone => Raise TypeError
  end.

(** ** Product records *)

(** The dict appended by [get_all_products] (lines 65-72).  The key
    [old_stock] is absent from a scraped dict ([None] here) and is set by
    the classification loop (lines 198 and 201). *)
Record product := Product {
  title : string;
  sku : string;
  url : string;
  stock_qty : Z;
  price : string;
  image : string;
  old_stock : option value
}.

#[global] Instance product_eq_dec : EqDecision product.
Proof. solve_decision. Defined.

(** [product['old_stock'] = v] *)
Definition set_old_stock (v : value) (p : product) : product :=
  Product (title p) (sku p) (url p) (stock_qty p) (price p) (image p) (Some v).

(** The dict as [json.dump] writes it and [json.load] reads it back. *)
Definition as_dict (p : product) : pydict :=
  let d : pydict :=
    <["title" := VStr (title p)]> (
    <["sku" := VStr (sku p)]> (
    <["url" := VStr (url p)]> (
    <["stock_qty" := VInt (stock_qty p)]> (
    <["price" := VStr (price p)]> (
    <["image" := VStr (image p)]> ∅))))) in
  match old_stock p with
  | Some v => <["old_stock" := v]> d
  | None => d
  end.

(** ** Snapshot store *)

(** The content of [firestorm_products.json]. *)
Inductive file_state :=
  | NoFile                                  (* [FileNotFoundError] *)
  | Corrupted                               (* [json.JSONDecodeError] *)
  | Saved (products_dict : gmap string pydict).

(** Lines 138-148: a missing or undecodable file reads as the empty dict. *)
Definition load_known_products (f : file_state) : gmap string pydict :=
  match f with
  | Saved d => d
  | NoFile | Corrupted => ∅
  end.

(** [{p['sku']: p for p in products if p['sku']}]: a later record replaces
    an earlier one with the same key. *)
Definition products_dict (products : list product) : gmap string pydict :=
  foldl (λ acc p, if decide (sku p = "") then acc else <[sku p := as_dict p]> acc)
        ∅ products.

(** Lines 150-158. *)
Definition save_known_products (products : list product) : file_state :=
  Saved (products_dict products).

(** ** The classification loop of [main] (lines 180-202) *)

(** [objs] is the store of the dicts of [current_products], addressed by
    position; the three event lists hold references into it, as the Python
    lists hold references to the same dict objects. *)
Record loop_state := LoopState {
  objs : list product;
  restocked : list nat;
  increased_stock : list nat;
  new_products : list nat
}.

(** One iteration, for the dict at position [i].  The loop only visits the
    positions of [current_products], so the first branch is never taken.
    Comparing the fetched integer with a stored string or [None] raises
    [TypeError], which [main] does not catch. *)
Definition loop_body (known_products : gmap string pydict) (i : nat)
    (st : loop_state) : result loop_state :=
  match objs st !! i with
  | None => Ok st
  | Some product =>
    if decide (sku product = "") then Ok st            (* [continue] *)
    else
      match known_products !! sku product with
      | None =>
        if bool_decide (0 < stock_qty product)%Z
        then Ok (LoopState (objs st) (restocked st) (increased_stock st)
                           (new_products st ++ [i]))
        else Ok st
      | Some old_product =>
        let old_stock := dict_get old_product "stock_qty" (VInt 0) in
        let new_stock := stock_qty product in
        if py_eq_int old_stock 0 && bool_decide (0 < new_stock)%Z
        then Ok (LoopState (<[i := set_old_stock old_stock product]> (objs st))
                           (restocked st ++ [i]) (increased_stock st)
                           (new_products st))
        else
          c ← int_gt new_stock old_stock;
          if c : bool then
            c' ← gt_int old_stock 0;
            if c' : bool
            then Ok (LoopState (<[i := set_old_stock old_stock product]> (objs st))
                               (restocked st) (increased_stock st ++ [i])
                               (new_products st))
            else Ok st
          else Ok st
      end
  end.

(** [for product in current_products], at position [i] with [n] dicts to
    go; an exception ends the loop. *)
Fixpoint for_loop (known_products : gmap string pydict) (n i : nat)
    (st : loop_state) : result loop_state :=
  match n with
  | O => Ok st
  | S n' => st' ← loop_body known_products i st;
            for_loop known_products n' (S i) st'
  end.

(** Lines 180-202: the three empty lists, then the loop. *)
Definition classify (known_products : gmap string pydict)
    (current_products : list product) : result loop_state :=
  for_loop known_products (length current_products) 0
           (LoopState current_products [] [] []).

(** ** Notification messages (lines 83-136) *)

Record embed_field := EmbedField {
  name : string;
  field_value : string;
  inline : bool
}.

(** The first embed of a message is the category summary (lines 90-96); every
    further embed is the detail block of one product (lines 99-127). *)
Inductive embed :=
  | SummaryEmbed (e_title e_description : string) (e_color : Z)
                 (e_timestamp e_footer : string)
  | ProductEmbed (e_title e_url : string) (e_color : Z)
                 (e_fields : list embed_field) (e_thumbnail : option string).

#[global] Instance embed_field_eq_dec : EqDecision embed_field.
Proof. solve_decision. Defined.

#[global] Instance embed_eq_dec : EqDecision embed.
Proof. solve_decision. Defined.

Definition is_detail (e : embed) : bool :=
  match e with
  | ProductEmbed _ _ _ _ _ => true
  | SummaryEmbed _ _ _ _ _ => false
  end.

(** The body of the loop over [products[:10]]. *)
Definition product_embed (color : Z) (product : product) : embed :=
  let fields :=
    [ EmbedField "Stock" ("**" +:+ pretty (stock_qty product) +:+ "** available") true;
      EmbedField "Price" (price product) true ] in
  let thumbnail :=
    if decide (image product = "") then None else Some (image product) in
  let fields :=
    match old_stock product with
    | Some VNone | None => fields
    | Some v =>
      EmbedField "Stock Change"
                 (py_str v +:+ " → " +:+ pretty (stock_qty product)) true
      :: fields
    end in
  ProductEmbed (title product) (url product) color fields thumbnail.

(** One attempt to hand a message to the webhook. *)
Record delivery := Delivery {
  payload : list embed;
  delivered : bool
}.

(** One cycle's result: the file, the loop state (event lists and the dicts
    they refer to) and the delivery attempts, in order. *)
Record outcome := Outcome {
  out_file : file_state;
  out_state : loop_state;
  out_posts : list delivery
}.

(** [products] of an event list: the dicts its references point to. *)
Definition deref (objs : list product) (refs : list nat) : list product :=
  omap (λ i, objs !! i) refs.

Section Cycle.

(** [os.getenv('DISCORD_WEBHOOK')] *)
Variable DISCORD_WEBHOOK : option string.
(** [datetime.utcnow().isoformat()] *)
Variable utcnow : string.
(** [requests.post] followed by [raise_for_status]: [false] when either
    raises. *)
Variable post : list embed → bool.

(** [if not DISCORD_WEBHOOK]: unset or empty. *)
Definition webhook_configured : bool :=
  match DISCORD_WEBHOOK with
  | None | Some "" => false
  | Some _ => true
  end.

(** Lines 90-127: the summary embed, then one embed for each of the first
    ten products. *)
Definition build_embeds (title description : string) (color : Z)
    (products : list product) : list embed :=
  SummaryEmbed title description color utcnow "Firestorm Cards Monitor"
  :: map (product_embed color) (take 10 products).

(** Lines 83-136.  Without a webhook nothing is attempted; otherwise the
    one message is posted, and a failure is caught and printed. *)
Definition send_discord_notification (title description : string)
    (color : Z) (products : list product) : list delivery :=
  if webhook_configured then
    let embeds := build_embeds title description color products in
    [Delivery embeds (post embeds)]
  else [].

(** Lines 204-213, 215-224 and 226-235: one call for each non-empty list. *)
Definition notify_restocked (products : list product) : list delivery :=
  match products with
  | [] => []
  | _ => send_discord_notification "🔔 RESTOCK ALERT!"
           (pretty (length products) +:+ " product(s) back in stock!")
           3066993 products
  end.

Definition notify_increased (products : list product) : list delivery :=
  match products with
  | [] => []
  | _ => send_discord_notification "📈 Stock Increased"
           (pretty (length products) +:+ " product(s) got more stock!")
           3447003 products
  end.

Definition notify_new (products : list product) : list delivery :=
  match products with
  | [] => []
  | _ => send_discord_notification "🆕 New Products Added!"
           (pretty (length products) +:+ " new product(s) available!")
           15844367 products
  end.

(** The messages of lines 204-235, in the order they are sent. *)
Definition cycle_posts (st : loop_state) : list delivery :=
  notify_restocked (deref (objs st) (restocked st))
  ++ notify_increased (deref (objs st) (increased_stock st))
  ++ notify_new (deref (objs st) (new_products st)).

(** ** One cycle: [main] (lines 160-240) *)

Definition no_events (current_products : list product) : loop_state :=
  LoopState current_products [] [] [].

(** [file] is the snapshot file before the cycle and [current_products]
    the result of [get_all_products].  The three early exits are the empty
    fetch (line 167), the first run (line 175) and an uncaught exception in
    the loop. *)
Definition main (file : file_state) (current_products : list product)
    : result outcome :=
  match current_products with
  | [] => Ok (Outcome file (no_events []) [])
  | _ =>
    let known_products := load_known_products file in
    if decide (known_products = ∅)
    then Ok (Outcome (save_known_products current_products)
                     (no_events current_products) [])
    else
      st ← classify known_products current_products;
      let posts :=
        notify_restocked (deref (objs st) (restocked st))
        ++ notify_increased (deref (objs st) (increased_stock st))
        ++ notify_new (deref (objs st) (new_products st)) in
      Ok (Outcome (save_known_products (objs st)) st posts)
  end.

(** The script run once per scheduled invocation (lines 242-243): each run
    reads the file the previous run left, and an uncaught exception ends
    the run without touching the file. *)
Fixpoint cycles (file : file_state) (fetches : list (list product))
    : result file_state :=
  match fetches with
  | [] => Ok file
  | current_products :: later =>
    out ← main file current_products;
    cycles (out_file out) later
  end.

End Cycle.

(** * Vocabulary of the properties *)

(** ** The classification of one record *)

Inductive category := Added | Restocked | Increased.

#[global] Instance category_eq_dec : EqDecision category.
Proof. solve_decision. Defined.

(** [old_stock] as line 194 computes it, for a record whose key is known. *)
Definition prior_stock (known_products : gmap string pydict) (p : product)
    : value :=
  match known_products !! sku p with
  | Some d => dict_get d "stock_qty" (VInt 0)
  | None => VInt 0
  end.

(** What an iteration of the loop decides for [p]; [loop_body_verdict]
    relates it to [loop_body]. *)
Definition verdict (known_products : gmap string pydict) (p : product)
    : result (option category) :=
  if decide (sku p = "") then Ok None
  else match known_products !! sku p with
       | None =>
         Ok (if bool_decide (0 < stock_qty p)%Z then Some Added else None)
       | Some d =>
         match dict_get d "stock_qty" (VInt 0) with
         | VInt o =>
           Ok (if bool_decide (o = 0 ∧ 0 < stock_qty p)%Z then Some Restocked
               else if bool_decide (0 < o ∧ o < stock_qty p)%Z then Some Increased
               else None)
         | VStr _ | VNone => Raise TypeError
         end
       end.

(** The dict of [p] once its iteration has run. *)
Definition mutated (known_products : gmap string pydict) (p : product)
    : product :=
  match verdict known_products p with
  | Ok (Some Restocked) | Ok (Some Increased) =>
    set_old_stock (prior_stock known_products p) p
  | _ => p
  end.

Definition has_verdict (known_products : gmap string pydict) (c : category)
    (p : product) : bool :=
  match verdict known_products p with
  | Ok (Some c') => bool_decide (c' = c)
  | _ => false
  end.

(** The state after the iteration at [i], when it does not raise. *)
Definition after_body (known_products : gmap string pydict) (i : nat)
    (p : product) (st : loop_state) : loop_state :=
  LoopState
    (<[i := mutated known_products p]> (objs st))
    (restocked st ++ if has_verdict known_products Restocked p then [i] else [])
    (increased_stock st ++ if has_verdict known_products Increased p then [i] else [])
    (new_products st ++ if has_verdict known_products Added p then [i] else []).

(** The references, counted from [i], of the records of [l] that satisfy [f]. *)
Fixpoint refs_where (f : product → bool) (i : nat) (l : list product)
    : list nat :=
  match l with
  | [] => []
  | p :: l' => (if f p then [i] else []) ++ refs_where f (S i) l'
  end.

(** A stored record is well typed when its [stock_qty], if present, is an
    integer; every snapshot written by [save_known_products] is. *)
Definition stock_well_typed (d : pydict) : Prop :=
  match dict_get d "stock_qty" (VInt 0) with
  | VInt _ => True
  | VStr _ | VNone => False
  end.

#[global] Instance stock_well_typed_dec d : Decision (stock_well_typed d).
Proof. unfold stock_well_typed. destruct (dict_get d "stock_qty" (VInt 0)); apply _. Defined.

Definition snapshot_wf (known_products : gmap string pydict) : Prop :=
  map_Forall (λ _ d, stock_well_typed d) known_products.

Definition runs (known_products : gmap string pydict) (p : product) : Prop :=
  ∃ v, verdict known_products p = Ok v.

(** The state in which the loop ends, when no iteration raises. *)
Definition classified (known_products : gmap string pydict)
    (current_products : list product) : loop_state :=
  LoopState
    (mutated known_products <$> current_products)
    (refs_where (has_verdict known_products Restocked) 0 current_products)
    (refs_where (has_verdict known_products Increased) 0 current_products)
    (refs_where (has_verdict known_products Added) 0 current_products).

(** The keys that take part in diffing: the non-empty [sku] values, in fetch
    order. *)
Definition keys (l : list product) : list string :=
  filter (λ k, k ≠ "") (sku <$> l).

(** ** Messages *)

(** The [fields] of a detail embed; the summary embed has none. *)
Definition embed_fields (e : embed) : list embed_field :=
  match e with
  | ProductEmbed _ _ _ fields _ => fields
  | SummaryEmbed _ _ _ _ _ => []
  end.

(** The summary a category of [n] events opens its message with, if it
    sends one. *)
Definition category_summary (utcnow title what : string) (color : Z)
    (n : nat) : list (option embed) :=
  match n with
  | O => []
  | S _ => [Some (SummaryEmbed title (pretty n +:+ what) color utcnow
                               "Firestorm Cards Monitor")]
  end.

(** ** Sample data *)

(** A scraped dict with key [k] and quantity [q]. *)
Definition card (k : string) (q : Z) : product :=
  Product ("Card " +:+ k) k ("https://www.firestormcards.co.uk/" +:+ k) q
          "£4.99" "" None.

(** The file after a cycle that saved the single record [card k q]. *)
Definition tracked (k : string) (q : Z) : file_state :=
  save_known_products [card k q].

Definition sample_webhook : option string :=
  Some "https://discord.com/api/webhooks/1/x".

Definition sample_time : string := "2024-05-01T12:00:00".

Definition always_delivered (embeds : list embed) : bool := true.

Definition never_delivered (embeds : list embed) : bool := false.

(** A stored record without a [stock_qty] key, and a file that holds it. *)
Definition legacy_entry : pydict :=
  <["title" := VStr "Card OP01"]> (<["sku" := VStr "OP01"]> ∅).

Definition legacy_file : file_state := Saved (<["OP01" := legacy_entry]> ∅).

(** A stored record whose [stock_qty] is a string, and a file that holds
    it. *)
Definition damaged_entry : pydict :=
  <["sku" := VStr "OP01"]> (<["stock_qty" := VStr "many"]> ∅).

Definition damaged_file : file_state := Saved (<["OP01" := damaged_entry]> ∅).

(** Eleven listings in stock, none of them tracked so far. *)
Definition eleven_cards : list product :=
  [card "OP01" 1; card "OP02" 2; card "OP03" 3; card "OP04" 4; card "OP05" 5;
   card "OP06" 6; card "OP07" 7; card "OP08" 8; card "OP09" 9; card "OP10" 10;
   card "OP11" 11].

(** * Properties *)

Lemma loop_state_eta (st : loop_state) :
  LoopState (objs st) (restocked st) (increased_stock st) (new_products st) = st.
Proof. by destruct st. Qed.

Lemma loop_body_verdict known i p st :
  objs st !! i = Some p →
  loop_body known i st =
    match verdict known p with
    | Ok _ => Ok (after_body known i p st)
    | Raise e => Raise e
    end.
Proof.
  intros Hi. unfold loop_body, after_body, mutated, has_verdict, verdict, prior_stock.
  rewrite Hi. destruct (decide (sku p = "")) as [He|He].
  { cbn. rewrite list_insert_id by done. rewrite !app_nil_r. by rewrite loop_state_eta. }
  destruct (known !! sku p) as [d|] eqn:Hk.
  - destruct (dict_get d "stock_qty" (VInt 0)) as [o| |] eqn:Hd; cbn; try done.
    repeat case_bool_decide; cbn; try lia;
      rewrite ?list_insert_id by done; rewrite ?app_nil_r;
      by rewrite ?loop_state_eta.
  - case_bool_decide; cbn; rewrite list_insert_id by done;
      rewrite ?app_nil_r; by rewrite ?loop_state_eta.
Qed.

(** ** The loop as a whole *)

Lemma verdict_runs known p : snapshot_wf known → runs known p.
Proof.
  intros Hwf. unfold runs, verdict.
  destruct (decide (sku p = "")); [by eauto|].
  destruct (known !! sku p) as [d|] eqn:Hk; [|by eauto].
  specialize (Hwf _ _ Hk). unfold stock_well_typed in Hwf.
  destruct (dict_get d "stock_qty" (VInt 0)); by eauto.
Qed.

Lemma elem_of_refs_where f l : ∀ i j,
  j ∈ refs_where f i l ↔ ∃ p, i ≤ j ∧ l !! (j - i) = Some p ∧ f p = true.
Proof.
  induction l as [|q l IH]; intros i j; cbn.
  { split; [by intros ?%elem_of_nil | by intros (p & _ & ? & _)]. }
  rewrite elem_of_app, IH. split.
  - intros [Hj | (p & Hle & Hp & Hf)].
    + destruct (f q) eqn:Hq; [|by apply elem_of_nil in Hj].
      apply list_elem_of_singleton in Hj as ->. exists q.
      by rewrite Nat.sub_diag.
    + exists p. split; [lia|]. split; [|done].
      by replace (j - i) with (S (j - S i)) by lia.
  - intros (p & Hle & Hp & Hf).
    destruct (decide (j = i)) as [->|Hne].
    + left. rewrite Nat.sub_diag in Hp. cbn in Hp. injection Hp as ->.
      rewrite Hf. by apply list_elem_of_singleton.
    + right. exists p. split; [lia|]. split; [|done].
      by replace (j - i) with (S (j - S i)) in Hp by lia.
Qed.

Lemma NoDup_refs_where f l : ∀ i, NoDup (refs_where f i l).
Proof.
  induction l as [|q l IH]; intros i; cbn; [by apply NoDup_nil|].
  apply NoDup_app. split; [|split; [|by apply IH]].
  - destruct (f q); [apply NoDup_singleton | apply NoDup_nil]; done.
  - intros j Hj. destruct (f q); [|by apply elem_of_nil in Hj].
    apply list_elem_of_singleton in Hj as ->.
    rewrite elem_of_refs_where. intros (p & Hle & _). lia.
Qed.

Lemma length_refs_where f l : ∀ i,
  length (refs_where f i l) = length (filter (λ p, f p = true) l).
Proof.
  induction l as [|q l IH]; intros i; [done|].
  cbn [refs_where]. rewrite length_app, IH, filter_cons.
  destruct (f q); case_decide; cbn; congruence.
Qed.

Lemma for_loop_run known todo : ∀ pre st,
  objs st = pre ++ todo →
  Forall (runs known) todo →
  for_loop known (length todo) (length pre) st =
    Ok (LoopState
          (pre ++ (mutated known <$> todo))
          (restocked st ++ refs_where (has_verdict known Restocked) (length pre) todo)
          (increased_stock st ++ refs_where (has_verdict known Increased) (length pre) todo)
          (new_products st ++ refs_where (has_verdict known Added) (length pre) todo)).
Proof.
  induction todo as [|p todo IH]; intros pre st Hobjs Hruns; cbn.
  { rewrite !app_nil_r in *. rewrite <- Hobjs. by rewrite loop_state_eta. }
  apply Forall_cons in Hruns as [[v Hv] Hruns].
  rewrite (loop_body_verdict known (length pre) p st), Hv; cbn.
  2:{ rewrite Hobjs. by apply list_lookup_middle. }
  specialize (IH (pre ++ [mutated known p]) (after_body known (length pre) p st)).
  rewrite length_app in IH. cbn in IH.
  replace (length pre + 1) with (S (length pre)) in IH by lia.
  rewrite IH; [|cbn|done].
  - cbn. by rewrite <- !app_assoc.
  - rewrite Hobjs, <- app_assoc. cbn.
    by rewrite insert_app_r_alt, Nat.sub_diag by lia.
Qed.

Lemma classify_run known current :
  Forall (runs known) current →
  classify known current =
    Ok (LoopState
          (mutated known <$> current)
          (refs_where (has_verdict known Restocked) 0 current)
          (refs_where (has_verdict known Increased) 0 current)
          (refs_where (has_verdict known Added) 0 current)).
Proof.
  intros Hruns. unfold classify.
  exact (for_loop_run known current [] (LoopState current [] [] []) eq_refl Hruns).
Qed.

Lemma classify_wf known current :
  snapshot_wf known →
  classify known current =
    Ok (LoopState
          (mutated known <$> current)
          (refs_where (has_verdict known Restocked) 0 current)
          (refs_where (has_verdict known Increased) 0 current)
          (refs_where (has_verdict known Added) 0 current)).
Proof.
  intros Hwf. apply classify_run, Forall_forall. intros; by apply verdict_runs.
Qed.

Lemma classify_classified known current :
  snapshot_wf known → classify known current = Ok (classified known current).
Proof. apply classify_wf. Qed.

Lemma elem_of_refs_where_0 f l i :
  i ∈ refs_where f 0 l ↔ ∃ p, l !! i = Some p ∧ f p = true.
Proof.
  rewrite elem_of_refs_where. rewrite Nat.sub_0_r.
  split; [intros (p & _ & ? & ?) | intros (p & ? & ?)]; exists p;
    repeat split; auto with lia.
Qed.

Lemma has_verdict_unique known c1 c2 p :
  has_verdict known c1 p = true → has_verdict known c2 p = true → c1 = c2.
Proof.
  unfold has_verdict. destruct (verdict known p) as [[c|]|]; try done.
  intros <-%bool_decide_eq_true <-%bool_decide_eq_true. done.
Qed.

Lemma has_verdict_Added known p :
  has_verdict known Added p = true ↔
  sku p ≠ "" ∧ known !! sku p = None ∧ (0 < stock_qty p)%Z.
Proof.
  unfold has_verdict, verdict.
  destruct (decide (sku p = "")) as [He|He].
  { split; [done | by intros [? _]]. }
  destruct (known !! sku p) as [d|].
  - split; [|by intros (_ & ? & _)].
    destruct (dict_get d "stock_qty" (VInt 0)); [|done..].
    repeat case_bool_decide; done.
  - case_bool_decide; [by rewrite bool_decide_eq_true|].
    split; [done | by intros (_ & _ & ?)].
Qed.

Lemma has_verdict_Restocked known p :
  has_verdict known Restocked p = true ↔
  sku p ≠ "" ∧ ∃ d, known !! sku p = Some d
    ∧ dict_get d "stock_qty" (VInt 0) = VInt 0 ∧ (0 < stock_qty p)%Z.
Proof.
  unfold has_verdict, verdict.
  destruct (decide (sku p = "")) as [He|He].
  { split; [done | by intros [? _]]. }
  destruct (known !! sku p) as [d|].
  2:{ split; [by case_bool_decide | by intros (_ & d & ? & _)]. }
  destruct (dict_get d "stock_qty" (VInt 0)) as [o| |] eqn:Hd.
  - case_bool_decide as H1.
    + split; [|by rewrite bool_decide_eq_true].
      intros _. split; [done|]. exists d. destruct H1 as [-> ?]. by rewrite Hd.
    + split; [by case_bool_decide|].
      intros (_ & d' & [= <-] & Ho & ?). rewrite Hd in Ho.
      injection Ho as ->. lia.
  - split; [done|]. intros (_ & d' & [= <-] & Ho & _). by rewrite Hd in Ho.
  - split; [done|]. intros (_ & d' & [= <-] & Ho & _). by rewrite Hd in Ho.
Qed.

Lemma has_verdict_Increased known p :
  has_verdict known Increased p = true ↔
  sku p ≠ "" ∧ ∃ d o, known !! sku p = Some d
    ∧ dict_get d "stock_qty" (VInt 0) = VInt o ∧ (0 < o ∧ o < stock_qty p)%Z.
Proof.
  unfold has_verdict, verdict.
  destruct (decide (sku p = "")) as [He|He].
  { split; [done | by intros [? _]]. }
  destruct (known !! sku p) as [d|].
  2:{ split; [by case_bool_decide | by intros (_ & d & ? & ? & _)]. }
  destruct (dict_get d "stock_qty" (VInt 0)) as [o| |] eqn:Hd.
  - case_bool_decide as H1.
    + split; [done|].
      intros (_ & d' & o' & [= <-] & Ho & ?). rewrite Hd in Ho.
      injection Ho as ->. lia.
    + case_bool_decide as H2.
      * split; [|by rewrite bool_decide_eq_true].
        intros _. split; [done|]. exists d, o. by rewrite Hd.
      * split; [done|].
        intros (_ & d' & o' & [= <-] & Ho & ?). rewrite Hd in Ho.
        injection Ho as ->. lia.
  - split; [done|]. intros (_ & d' & o' & [= <-] & Ho & _). by rewrite Hd in Ho.
  - split; [done|]. intros (_ & d' & o' & [= <-] & Ho & _). by rewrite Hd in Ho.
Qed.

(** No reference occurs twice among the events of a cycle. *)
Lemma NoDup_events known current :
  NoDup (restocked (classified known current)
         ++ increased_stock (classified known current)
         ++ new_products (classified known current)).
Proof.
  cbn. apply NoDup_app. split; [apply NoDup_refs_where|]. split.
  - intros i Hr [Hi|Ha]%elem_of_app;
      apply elem_of_refs_where_0 in Hr as (p & Hp & Hr).
    + apply elem_of_refs_where_0 in Hi as (p' & Hp' & Hi).
      assert (p' = p) as -> by congruence.
      by pose proof (has_verdict_unique _ _ _ _ Hr Hi).
    + apply elem_of_refs_where_0 in Ha as (p' & Hp' & Ha).
      assert (p' = p) as -> by congruence.
      by pose proof (has_verdict_unique _ _ _ _ Hr Ha).
  - apply NoDup_app. split; [apply NoDup_refs_where|].
    split; [|apply NoDup_refs_where].
    intros i Hi Ha.
    apply elem_of_refs_where_0 in Hi as (p & Hp & Hi).
    apply elem_of_refs_where_0 in Ha as (p' & Hp' & Ha).
    assert (p' = p) as -> by congruence.
    by pose proof (has_verdict_unique _ _ _ _ Hi Ha).
Qed.

(** ** The snapshot written *)

Lemma products_dict_snoc l p :
  products_dict (l ++ [p]) =
    if decide (sku p = "") then products_dict l
    else <[sku p := as_dict p]> (products_dict l).
Proof. unfold products_dict. by rewrite foldl_app. Qed.

Lemma products_dict_lookup l k :
  k ≠ "" →
  products_dict l !! k = as_dict <$> last (filter (λ p, sku p = k) l).
Proof.
  intros Hk. induction l as [|p l IH] using rev_ind; [done|].
  rewrite products_dict_snoc, filter_app, last_app, filter_cons, filter_nil.
  destruct (decide (sku p = k)) as [<-|Hne]; cbn.
  - destruct (decide (sku p = "")); [done|]. by rewrite lookup_insert_eq.
  - destruct (decide (sku p = "")); [done|]. by rewrite lookup_insert_ne.
Qed.

Lemma products_dict_empty_key l : products_dict l !! "" = None.
Proof.
  induction l as [|p l IH] using rev_ind; [done|].
  rewrite products_dict_snoc. destruct (decide (sku p = "")); [done|].
  by rewrite lookup_insert_ne.
Qed.

Lemma sku_mutated known p : sku (mutated known p) = sku p.
Proof. unfold mutated. by repeat case_match. Qed.

Lemma stock_qty_mutated known p : stock_qty (mutated known p) = stock_qty p.
Proof. unfold mutated. by repeat case_match. Qed.

Lemma filter_key_mutated known k (l : list product) :
  filter (λ p, sku p = k) (mutated known <$> l)
  = mutated known <$> filter (λ p, sku p = k) l.
Proof.
  induction l as [|p l IH]; [done|].
  rewrite fmap_cons, !filter_cons, sku_mutated, IH. by case_decide.
Qed.

Lemma products_dict_mutated known (l : list product) k :
  k ≠ "" →
  products_dict (mutated known <$> l) !! k
  = as_dict ∘ mutated known <$> last (filter (λ p, sku p = k) l).
Proof.
  intros Hk.
  rewrite products_dict_lookup, filter_key_mutated, fmap_last by done.
  by rewrite <- option_fmap_compose.
Qed.

Lemma as_dict_stock p : as_dict p !! "stock_qty" = Some (VInt (stock_qty p)).
Proof. unfold as_dict. by destruct (old_stock p). Qed.

Lemma snapshot_wf_products_dict l : snapshot_wf (products_dict l).
Proof.
  intros k d Hd. destruct (decide (k = "")) as [->|Hk].
  { by rewrite products_dict_empty_key in Hd. }
  rewrite products_dict_lookup in Hd by done.
  apply fmap_Some in Hd as (p & _ & ->).
  unfold stock_well_typed, dict_get. by rewrite as_dict_stock.
Qed.

Lemma verdict_mutated known p : verdict known (mutated known p) = verdict known p.
Proof.
  unfold verdict. by rewrite sku_mutated, stock_qty_mutated.
Qed.

Lemma mutated_cases known p :
  mutated known p =
    if has_verdict known Restocked p || has_verdict known Increased p
    then set_old_stock (prior_stock known p) p
    else p.
Proof.
  unfold mutated, has_verdict. by destruct (verdict known p) as [[[]|]|].
Qed.

Lemma lookup_classified_objs known current i :
  objs (classified known current) !! i = mutated known <$> current !! i.
Proof. cbn. by rewrite list_lookup_fmap. Qed.

(** The dicts an event list refers to are the mutated dicts of the records
    with that verdict, in fetch order. *)
Lemma deref_refs_where (g : product → product) f l : ∀ pre,
  deref (pre ++ (g <$> l)) (refs_where f (length pre) l)
  = g <$> filter (λ p, f p = true) l.
Proof.
  unfold deref. induction l as [|q l IH]; intros pre; [done|].
  cbn [refs_where]. rewrite omap_app, filter_cons, fmap_cons.
  specialize (IH (pre ++ [g q])). rewrite length_app in IH. cbn in IH.
  replace (length pre + 1) with (S (length pre)) in IH by lia.
  rewrite <- app_assoc in IH. cbn in IH. rewrite IH.
  destruct (f q); case_decide; try done. cbn.
  by rewrite list_lookup_middle.
Qed.

Lemma deref_classified known current c :
  deref (mutated known <$> current)
        (refs_where (has_verdict known c) 0 current)
  = mutated known <$> filter (λ p, has_verdict known c p = true) current.
Proof. exact (deref_refs_where (mutated known) _ current []). Qed.

(** ** Keys *)

Lemma keys_app l1 l2 : keys (l1 ++ l2) = keys l1 ++ keys l2.
Proof. unfold keys. by rewrite fmap_app, filter_app. Qed.

Lemma elem_of_keys l k : k ∈ keys l ↔ k ≠ "" ∧ ∃ q, q ∈ l ∧ sku q = k.
Proof.
  unfold keys. rewrite list_elem_of_filter, list_elem_of_fmap.
  split; intros [? (q & ? & ?)]; (split; [done|]); exists q; by split.
Qed.

Lemma filter_key_nil (l : list product) k :
  k ≠ "" → k ∉ keys l → filter (λ q, sku q = k) l = [].
Proof.
  intros Hk Hnot. induction l as [|q l IH]; [done|].
  rewrite filter_cons. case_decide as Hq.
  - destruct Hnot. apply elem_of_keys. split; [done|].
    exists q. split; [apply list_elem_of_here | done].
  - apply IH. intros (_ & q' & ? & ?)%elem_of_keys. apply Hnot, elem_of_keys.
    split; [done|]. exists q'. split; [by apply list_elem_of_further | done].
Qed.

Lemma filter_key_unique (l : list product) p :
  NoDup (keys l) → p ∈ l → sku p ≠ "" →
  filter (λ q, sku q = sku p) l = [p].
Proof.
  intros Hnd Hp Hk. induction l as [|q l IH]; [by apply elem_of_nil in Hp|].
  change (q :: l) with ([q] ++ l) in Hnd. rewrite keys_app in Hnd.
  apply NoDup_app in Hnd as (_ & Hdisj & Hnd).
  rewrite filter_cons. case_decide as Hq.
  - assert (sku p ∉ keys l) as Hnot.
    { apply Hdisj, elem_of_keys. split; [done|]. exists q.
      split; [apply list_elem_of_here | done]. }
    rewrite filter_key_nil by done.
    apply elem_of_cons in Hp as [->|Hp]; [done|].
    destruct Hnot. apply elem_of_keys. split; [done|]. by exists p.
  - apply elem_of_cons in Hp as [->|Hp]; [done|]. by apply IH.
Qed.

Lemma products_dict_lookup_unique l p :
  NoDup (keys l) → p ∈ l → sku p ≠ "" →
  products_dict l !! sku p = Some (as_dict p).
Proof.
  intros Hnd Hp Hk. by rewrite products_dict_lookup, filter_key_unique.
Qed.

Lemma products_dict_lookup_fresh l k :
  k ≠ "" → k ∉ keys l → products_dict l !! k = None.
Proof. intros Hk Hnot. by rewrite products_dict_lookup, filter_key_nil. Qed.

Lemma size_products_dict l :
  NoDup (keys l) → size (products_dict l) = length (keys l).
Proof.
  induction l as [|p l IH] using rev_ind; intros Hnd; [done|].
  rewrite keys_app in Hnd. apply NoDup_app in Hnd as (Hnd & Hdisj & _).
  rewrite products_dict_snoc, keys_app, length_app.
  change (keys [p]) with (filter (λ k, k ≠ "") [sku p]).
  rewrite filter_cons, filter_nil.
  destruct (decide (sku p = "")) as [He|He].
  - rewrite decide_False by (by intros []). cbn. rewrite IH by done. lia.
  - rewrite decide_True by done. cbn.
    assert (sku p ∉ keys l) as Hfresh.
    { intros Hin. apply (Hdisj _ Hin). unfold keys.
      change (sku <$> [p]) with [sku p].
      rewrite filter_cons, decide_True by done. apply list_elem_of_here. }
    rewrite map_size_insert_None by (by apply products_dict_lookup_fresh).
    rewrite IH by done. lia.
Qed.

Lemma keys_all_nonempty l :
  Forall (λ p, sku p ≠ "") l → keys l = sku <$> l.
Proof.
  induction 1 as [|p l Hp _ IH]; [done|].
  unfold keys in *. rewrite fmap_cons, filter_cons, decide_True by done.
  by rewrite IH.
Qed.

Lemma last_filter_key_elem (l : list product) k q :
  last (filter (λ p, sku p = k) l) = Some q → q ∈ l ∧ sku q = k.
Proof.
  intros Hq%last_Some_elem_of. apply list_elem_of_filter in Hq as [? ?]. done.
Qed.

Lemma last_filter_key_is_Some (l : list product) p :
  p ∈ l → is_Some (last (filter (λ q, sku q = sku p) l)).
Proof.
  intros Hp. apply last_is_Some. intros Hnil.
  by apply (filter_nil_not_elem_of _ _ p) in Hnil.
Qed.

Lemma event_membership known current c i p :
  current !! i = Some p →
  i ∈ refs_where (has_verdict known c) 0 current ↔ has_verdict known c p = true.
Proof.
  intros Hi. rewrite elem_of_refs_where_0. split.
  - intros (p' & Hp' & Hv). congruence.
  - intros Hv. by exists p.
Qed.

Lemma known_nonempty (known : gmap string pydict) k d :
  known !! k = Some d → known ≠ ∅.
Proof. intros Hk ->. by rewrite lookup_empty in Hk. Qed.

Lemma lookup_nonempty (current : list product) i p :
  current !! i = Some p → current ≠ [].
Proof. by intros Hi ->. Qed.

Lemma prior_stock_known known p d :
  known !! sku p = Some d →
  prior_stock known p = dict_get d "stock_qty" (VInt 0).
Proof. intros Hd. unfold prior_stock. by rewrite Hd. Qed.

Lemma mutated_unknown known p :
  known !! sku p = None → mutated known p = p.
Proof.
  intros Hk. unfold mutated, verdict. rewrite Hk.
  destruct (decide (sku p = "")); [done|]. by case_bool_decide.
Qed.

Lemma known_verdicts known p d old :
  sku p ≠ "" →
  known !! sku p = Some d →
  dict_get d "stock_qty" (VInt 0) = VInt old →
  (has_verdict known Restocked p = true ↔ (old = 0 ∧ 0 < stock_qty p)%Z)
  ∧ (has_verdict known Increased p = true ↔ (0 < old ∧ old < stock_qty p)%Z)
  ∧ has_verdict known Added p = false.
Proof.
  intros Hk Hd Hget. unfold has_verdict, verdict.
  rewrite decide_False, Hd, Hget by done.
  repeat case_bool_decide; repeat split; try done; lia.
Qed.

Lemma unknown_verdicts known p :
  sku p ≠ "" →
  known !! sku p = None →
  has_verdict known Restocked p = false
  ∧ has_verdict known Increased p = false
  ∧ (has_verdict known Added p = true ↔ (0 < stock_qty p)%Z).
Proof.
  intros Hk Hd. unfold has_verdict, verdict.
  rewrite decide_False, Hd by done.
  repeat case_bool_decide; repeat split; done.
Qed.

Lemma classified_record known current i p :
  current !! i = Some p →
  (i ∈ restocked (classified known current)
     ↔ has_verdict known Restocked p = true)
  ∧ (i ∈ increased_stock (classified known current)
     ↔ has_verdict known Increased p = true)
  ∧ (i ∈ new_products (classified known current)
     ↔ has_verdict known Added p = true)
  ∧ objs (classified known current) !! i = Some (mutated known p).
Proof.
  intros Hi. cbn [classified restocked increased_stock new_products].
  rewrite !(event_membership _ _ _ _ _ Hi), lookup_classified_objs, Hi. done.
Qed.

Lemma verdict_int_stock known p d old :
  known !! sku p = Some d →
  dict_get d "stock_qty" (VInt 0) = VInt old →
  runs known p.
Proof.
  intros Hd Hget. unfold runs, verdict. rewrite Hd, Hget.
  destruct (decide (sku p = "")); eauto.
Qed.

Lemma products_dict_nonempty l p :
  p ∈ l → sku p ≠ "" → products_dict l ≠ ∅.
Proof.
  intros Hp Hk. destruct (last_filter_key_is_Some _ _ Hp) as [q Hq].
  apply (known_nonempty _ (sku p) (as_dict q)).
  by rewrite products_dict_lookup, Hq.
Qed.

(** ** The three paths of a cycle *)

Section CycleLemmas.

Variable DISCORD_WEBHOOK : option string.
Variable utcnow : string.
Variable post : list embed → bool.

Lemma main_no_data file :
  main DISCORD_WEBHOOK utcnow post file [] = Ok (Outcome file (no_events []) []).
Proof. done. Qed.

Lemma main_first_run file current :
  current ≠ [] →
  load_known_products file = ∅ →
  main DISCORD_WEBHOOK utcnow post file current
  = Ok (Outcome (save_known_products current) (no_events current) []).
Proof.
  intros Hne Hknown. unfold main. destruct current as [|p l]; [done|].
  by rewrite decide_True.
Qed.

Lemma main_run file current :
  current ≠ [] →
  load_known_products file ≠ ∅ →
  snapshot_wf (load_known_products file) →
  main DISCORD_WEBHOOK utcnow post file current
  = Ok (Outcome
          (save_known_products (mutated (load_known_products file) <$> current))
          (classified (load_known_products file) current)
          (cycle_posts DISCORD_WEBHOOK utcnow post
                       (classified (load_known_products file) current))).
Proof.
  intros Hne Hknown Hwf. unfold main. destruct current as [|p l]; [done|].
  rewrite decide_False by done.
  by rewrite classify_classified.
Qed.

End CycleLemmas.

(** ** Delivery and the next cycle *)

Section Delivery.

Variable DISCORD_WEBHOOK : option string.
Variable utcnow : string.
Variables post post' : list embed → bool.

Lemma payload_send title description color products :
  payload <$> send_discord_notification DISCORD_WEBHOOK utcnow post
                title description color products
  = payload <$> send_discord_notification DISCORD_WEBHOOK utcnow post'
                  title description color products.
Proof. unfold send_discord_notification. by destruct webhook_configured. Qed.

Lemma payload_cycle_posts st :
  payload <$> cycle_posts DISCORD_WEBHOOK utcnow post st
  = payload <$> cycle_posts DISCORD_WEBHOOK utcnow post' st.
Proof.
  unfold cycle_posts, notify_restocked, notify_increased, notify_new.
  rewrite !fmap_app.
  f_equal; [|f_equal]; case_match; done || apply payload_send.
Qed.

Lemma delivered_send title description color products :
  Forall (λ dl, delivered dl = post (payload dl))
         (send_discord_notification DISCORD_WEBHOOK utcnow post
            title description color products).
Proof.
  unfold send_discord_notification. destruct webhook_configured; [|done].
  by apply Forall_singleton.
Qed.

Lemma delivered_cycle_posts st :
  Forall (λ dl, delivered dl = post (payload dl))
         (cycle_posts DISCORD_WEBHOOK utcnow post st).
Proof.
  unfold cycle_posts, notify_restocked, notify_increased, notify_new.
  repeat apply Forall_app_2; case_match; done || apply delivered_send.
Qed.

End Delivery.

Lemma filter_key_fmap (g : product → product) k (l : list product) :
  (∀ p, sku (g p) = sku p) →
  filter (λ p, sku p = k) (g <$> l) = g <$> filter (λ p, sku p = k) l.
Proof.
  intros Hg. induction l as [|p l IH]; [done|].
  rewrite fmap_cons, !filter_cons, Hg, IH. by case_decide.
Qed.

Lemma same_stock_no_verdict known p d c :
  sku p ≠ "" →
  known !! sku p = Some d →
  d !! "stock_qty" = Some (VInt (stock_qty p)) →
  has_verdict known c p = false.
Proof.
  intros Hk Hd Hs.
  assert (dict_get d "stock_qty" (VInt 0) = VInt (stock_qty p)) as Hget.
  { unfold dict_get. by rewrite Hs. }
  destruct (known_verdicts _ _ _ _ Hk Hd Hget) as (HR & HI & HA).
  destruct c; [done| |]; apply not_true_is_false; intros Ht.
  - apply HR in Ht. lia.
  - apply HI in Ht. lia.
Qed.

(** A cycle that starts from the snapshot saved for [g <$> current], where
    [g] keeps key and quantity, raises no event for the record that was
    saved under its key. *)
Lemma next_cycle_quiet hook utcnow post (g : product → product)
    (current : list product) :
  (∀ p, sku (g p) = sku p) →
  (∀ p, stock_qty (g p) = stock_qty p) →
  ∃ out, main hook utcnow post (save_known_products (g <$> current)) current
         = Ok out
    ∧ ∀ i q, current !! i = Some q → sku q ≠ "" →
        last (filter (λ r, sku r = sku q) current) = Some q →
        (i ∉ restocked (out_state out))
        ∧ (i ∉ increased_stock (out_state out))
        ∧ (i ∉ new_products (out_state out)).
Proof.
  intros Hsku Hstock.
  destruct current as [|p0 l] eqn:Hcur; [by eexists|]. rewrite <- Hcur.
  assert (current ≠ []) as Hne by (by rewrite Hcur).
  destruct (decide (load_known_products
                      (save_known_products (g <$> current)) = ∅)) as [He|He].
  { eexists. rewrite main_first_run by done. split; [done|].
    intros i q _ _ _. cbn. repeat split; by intros ?%elem_of_nil. }
  eexists. rewrite main_run by (done || apply snapshot_wf_products_dict).
  split; [done|]. intros i q Hi Hk Hlast. cbn [out_state].
  destruct (classified_record
              (load_known_products (save_known_products (g <$> current)))
              _ _ _ Hi) as (-> & -> & -> & _).
  assert (load_known_products (save_known_products (g <$> current)) !! sku q
          = Some (as_dict (g q))) as Hd.
  { cbn. by rewrite products_dict_lookup, filter_key_fmap, fmap_last, Hlast. }
  assert (as_dict (g q) !! "stock_qty" = Some (VInt (stock_qty q))) as Hs.
  { by rewrite as_dict_stock, Hstock. }
  by rewrite !(same_stock_no_verdict _ _ _ _ Hk Hd Hs).
Qed.

(** ** Events per key *)

(** The dicts of all the events of a state, in the order restocked,
    increased, new. *)
Lemma deref_app objs refs1 refs2 :
  deref objs (refs1 ++ refs2) = deref objs refs1 ++ deref objs refs2.
Proof. unfold deref. apply omap_app. Qed.

Lemma count_exclusive (K : product → Prop) `{!∀ p, Decision (K p)}
    (R I A : product → bool) (l : list product) :
  (∀ p, R p = true → I p = true → False) →
  (∀ p, R p = true → A p = true → False) →
  (∀ p, I p = true → A p = true → False) →
  length (filter K (filter (λ p, R p = true) l))
  + length (filter K (filter (λ p, I p = true) l))
  + length (filter K (filter (λ p, A p = true) l))
  ≤ length (filter K l).
Proof.
  intros HRI HRA HIA. induction l as [|p l IH]; [done|].
  rewrite !filter_cons.
  destruct (decide (R p = true)) as [HR|HR];
    destruct (decide (I p = true)) as [HI|HI];
    destruct (decide (A p = true)) as [HA|HA];
    try (by destruct (HRI p)); try (by destruct (HRA p));
    try (by destruct (HIA p));
    rewrite ?filter_cons; destruct (decide (K p)); cbn; lia.
Qed.

Lemma events_per_key known current k :
  length (filter (λ r, sku r = k)
            (deref (objs (classified known current))
               (restocked (classified known current)
                ++ increased_stock (classified known current)
                ++ new_products (classified known current))))
  ≤ length (filter (λ r, sku r = k) current).
Proof.
  cbn [classified objs restocked increased_stock new_products].
  rewrite !deref_app, !deref_classified, !filter_app, !length_app.
  rewrite !filter_key_mutated, !length_fmap.
  pose proof (count_exclusive (λ r, sku r = k)
                (has_verdict known Restocked) (has_verdict known Increased)
                (has_verdict known Added) current) as Hcount.
  rewrite Nat.add_assoc. apply Hcount; intros p H1 H2;
    by pose proof (has_verdict_unique _ _ _ _ H1 H2).
Qed.

Lemma classified_alone known p c :
  0 ∈ match c with
      | Restocked => restocked (classified known [p])
      | Increased => increased_stock (classified known [p])
      | Added => new_products (classified known [p])
      end
  ↔ has_verdict known c p = true.
Proof.
  destruct c; cbn [classified restocked increased_stock new_products];
    by rewrite (event_membership known [p] _ 0 p).
Qed.

Lemma sku_classified_objs known current :
  sku <$> objs (classified known current) = sku <$> current.
Proof.
  cbn. rewrite <- list_fmap_compose. apply list_fmap_ext.
  intros i p _. apply sku_mutated.
Qed.

(** ** Cycles without events *)

Lemma refs_where_none f (l : list product) : ∀ i,
  (∀ p, p ∈ l → f p = false) → refs_where f i l = [].
Proof.
  induction l as [|q l IH]; intros i Hf; [done|]. cbn.
  rewrite (Hf q) by apply list_elem_of_here.
  apply IH. intros p Hp. apply Hf. by apply list_elem_of_further.
Qed.

Lemma mutated_none known (l : list product) :
  (∀ p c, p ∈ l → has_verdict known c p = false) →
  mutated known <$> l = l.
Proof.
  intros Hf. induction l as [|q l IH]; [done|].
  rewrite fmap_cons, IH.
  - rewrite mutated_cases, !Hf by apply list_elem_of_here. done.
  - intros p c Hp. apply Hf. by apply list_elem_of_further.
Qed.

Lemma classified_quiet known current :
  (∀ p c, p ∈ current → has_verdict known c p = false) →
  classified known current = no_events current.
Proof.
  intros Hf. unfold classified, no_events.
  rewrite mutated_none by done.
  by rewrite !refs_where_none by (intros p Hp; by apply Hf).
Qed.

Lemma empty_key_no_verdict known p c :
  sku p = "" → has_verdict known c p = false.
Proof.
  intros Hk. unfold has_verdict, verdict. by rewrite decide_True.
Qed.

Lemma cycle_posts_no_events hook utcnow post current :
  cycle_posts hook utcnow post (no_events current) = [].
Proof. done. Qed.

(** ** Saved dicts *)

Lemma as_dict_set_old_stock v q :
  as_dict (set_old_stock v q) = <["old_stock" := v]> (as_dict q).
Proof.
  unfold as_dict, set_old_stock. cbn [title sku url stock_qty price image old_stock].
  destruct (old_stock q); [by rewrite insert_insert_eq | done].
Qed.

(** ** Batching *)

Lemma filter_detail_embeds color (products : list product) :
  filter (λ e, is_detail e = true) (product_embed color <$> products)
  = product_embed color <$> products.
Proof.
  induction products as [|p l IH]; [done|].
  rewrite fmap_cons, filter_cons_True by done. by rewrite IH.
Qed.

Lemma details_build_embeds utcnow title description color products :
  filter (λ e, is_detail e = true)
         (build_embeds utcnow title description color products)
  = product_embed color <$> take 10 products.
Proof.
  unfold build_embeds. rewrite filter_cons_False by done.
  apply filter_detail_embeds.
Qed.

(** * The claims *)

Section Claims.

Variable DISCORD_WEBHOOK : option string.
Variable utcnow : string.
Variable post : list embed → bool.

(** C8.  When the fetch yields no record the cycle stops before anything
    else happens: it produces no event, hands no message to the webhook,
    and leaves the snapshot file exactly as it was. *)
Theorem empty_fetch_aborts (file : file_state) :
  ∃ out, main DISCORD_WEBHOOK utcnow post file [] = Ok out
    ∧ out_file out = file
    ∧ restocked (out_state out) = []
    ∧ increased_stock (out_state out) = []
    ∧ new_products (out_state out) = []
    ∧ out_posts out = [].
Proof. eexists. by rewrite main_no_data. Qed.




(** C4.  A fetched record whose key is not in the prior snapshot.  The
    classification loop puts it in [new_products] exactly when its quantity
    is positive, never in the other two lists, at most once, and leaves its
    dict untouched; a cycle that runs the loop ends in that state.  Whether
    or not it produced an event, its key is in the snapshot the cycle
    writes, bound to the unchanged dict of the last fetched record with that
    key. *)
Theorem new_record_added_iff_in_stock (file : file_state)
    (current_products : list product) (i : nat) (p : product) :
  snapshot_wf (load_known_products file) →
  current_products !! i = Some p →
  sku p ≠ "" →
  load_known_products file !! sku p = None →
  ∃ st, classify (load_known_products file) current_products = Ok st
    ∧ NoDup (restocked st ++ increased_stock st ++ new_products st)
    ∧ (i ∈ new_products st ↔ (0 < stock_qty p)%Z)
    ∧ (i ∉ restocked st)
    ∧ (i ∉ increased_stock st)
    ∧ objs st !! i = Some p
    ∧ ∃ out, main DISCORD_WEBHOOK utcnow post file current_products = Ok out
        ∧ (load_known_products file ≠ ∅ → out_state out = st)
        ∧ ∃ q, last (filter (λ r, sku r = sku p) current_products) = Some q
            ∧ load_known_products (out_file out) !! sku p = Some (as_dict q).
Proof.
  intros Hwf Hi Hk Hnone.
  eexists. rewrite classify_classified by done. split; [done|].
  split; [apply NoDup_events|].
  destruct (classified_record (load_known_products file) _ _ _ Hi)
    as (-> & -> & -> & ->).
  destruct (unknown_verdicts _ _ Hk Hnone) as (HR & HI & HA).
  rewrite mutated_unknown by done.
  split; [done|]. split; [by rewrite HR|]. split; [by rewrite HI|].
  split; [done|].
  assert (p ∈ current_products) as Hp by (by eapply list_elem_of_lookup_2).
  destruct (last_filter_key_is_Some _ _ Hp) as [q Hq].
  destruct (decide (load_known_products file = ∅)) as [He|He].
  - eexists. rewrite main_first_run by eauto using lookup_nonempty.
    split; [done|]. split; [done|]. exists q. split; [done|]. cbn.
    by rewrite products_dict_lookup, Hq.
  - eexists. rewrite main_run by eauto using lookup_nonempty.
    split; [done|]. split; [done|]. exists q. split; [done|]. cbn.
    rewrite products_dict_mutated, Hq by done. cbn.
    rewrite mutated_unknown; [done|].
    apply last_filter_key_elem in Hq as [_ ->]. done.
Qed.


(** C1, as the code has it.  With a webhook configured, the events of one
    category go into a single message: its detail blocks are the blocks of
    the first ten events, in order, and nothing is built for an event past
    the tenth.  Eleven events give one message with ten detail blocks.  The
    [Added] events of a cycle are batched by this function. *)
Theorem batching_truncates_at_ten (title description : string) (color : Z)
    (products : list product) :
  webhook_configured DISCORD_WEBHOOK = true →
  ∃ embeds,
    send_discord_notification DISCORD_WEBHOOK utcnow post
      title description color products = [Delivery embeds (post embeds)]
    ∧ filter (λ e, is_detail e = true) embeds
      = product_embed color <$> take 10 products
    ∧ length (filter (λ e, is_detail e = true) embeds)
      = 10 `min` length products
    ∧ (length products = 11 →
         length (filter (λ e, is_detail e = true) embeds) = 10)
    ∧ (products ≠ [] →
         notify_new DISCORD_WEBHOOK utcnow post products
         = send_discord_notification DISCORD_WEBHOOK utcnow post
             "🆕 New Products Added!"
             (pretty (length products) +:+ " new product(s) available!")
             15844367 products).
Proof.
  intros Hhook. eexists.
  split; [unfold send_discord_notification; by rewrite Hhook|].
  rewrite details_build_embeds, length_fmap, length_take.
  split; [done|]. split; [done|]. split; [lia|].
  intros Hne. by destruct products.
Qed.

(** C2, as the code has it.  Every fetched record is classified on its own
    against the prior snapshot: its reference is in an event list exactly
    when the record, fetched alone, would be.  No reference occurs twice
    among the events, so a record yields at most one event and a key yields
    at most as many events as it has records in the fetch: at most one when
    it occurs once.  The loop keeps the key of every dict, and the snapshot
    written binds each key to the dict of the last record with that key. *)
Theorem one_event_per_record (file : file_state)
    (current_products : list product) :
  snapshot_wf (load_known_products file) →
  ∃ st, classify (load_known_products file) current_products = Ok st
    ∧ NoDup (restocked st ++ increased_stock st ++ new_products st)
    ∧ (∀ k, length (filter (λ r, sku r = k)
                      (deref (objs st)
                         (restocked st ++ increased_stock st
                          ++ new_products st)))
            ≤ length (filter (λ r, sku r = k) current_products))
    ∧ (∀ i p, current_products !! i = Some p →
         ∃ alone, classify (load_known_products file) [p] = Ok alone
           ∧ (i ∈ restocked st ↔ 0 ∈ restocked alone)
           ∧ (i ∈ increased_stock st ↔ 0 ∈ increased_stock alone)
           ∧ (i ∈ new_products st ↔ 0 ∈ new_products alone))
    ∧ sku <$> objs st = sku <$> current_products
    ∧ (∀ k, k ≠ "" →
         load_known_products (save_known_products (objs st)) !! k
         = as_dict <$> last (filter (λ r, sku r = k) (objs st)))
    ∧ (current_products ≠ [] → load_known_products file ≠ ∅ →
         ∃ out, main DISCORD_WEBHOOK utcnow post file current_products = Ok out
           ∧ out_state out = st
           ∧ out_file out = save_known_products (objs st)).
Proof.
  intros Hwf. eexists. rewrite classify_classified by done.
  split; [done|]. split; [apply NoDup_events|].
  split; [intros k; apply events_per_key|]. split.
  { intros i p Hi. eexists. rewrite classify_classified by done.
    split; [done|].
    destruct (classified_record (load_known_products file) _ _ _ Hi)
      as (-> & -> & -> & _).
    rewrite <- (classified_alone _ p Restocked),
            <- (classified_alone _ p Increased),
            <- (classified_alone _ p Added). done. }
  split; [apply sku_classified_objs|]. split.
  { intros k Hk. cbn [load_known_products save_known_products].
    by apply products_dict_lookup. }
  intros Hne He. eexists. by rewrite main_run.
Qed.


(** C7, as the code has it.  After a non-empty fetch every entry of the
    snapshot written is the dict of a fetched record, the last one with its
    key.  When that record raised a [Restocked] or [Increased] event in this
    cycle the stored dict carries one more key, [old_stock], holding the
    prior quantity; otherwise the stored dict is exactly the fetched one. *)
Theorem persisted_record_shape (file : file_state)
    (current_products : list product) :
  snapshot_wf (load_known_products file) →
  current_products ≠ [] →
  ∃ out, main DISCORD_WEBHOOK utcnow post file current_products = Ok out
    ∧ ∀ k d, load_known_products (out_file out) !! k = Some d →
        k ≠ ""
        ∧ ∃ i q, current_products !! i = Some q
            ∧ sku q = k
            ∧ last (filter (λ r, sku r = k) current_products) = Some q
            ∧ (((i ∈ restocked (out_state out)
                 ∨ i ∈ increased_stock (out_state out))
                ∧ ∃ d0, load_known_products file !! k = Some d0
                    ∧ d = <["old_stock" := dict_get d0 "stock_qty" (VInt 0)]>
                            (as_dict q))
               ∨ ((i ∉ restocked (out_state out))
                  ∧ (i ∉ increased_stock (out_state out))
                  ∧ d = as_dict q)).
Proof.
  intros Hwf Hne.
  destruct (decide (load_known_products file = ∅)) as [He|He].
  - eexists. rewrite main_first_run by done. split; [done|].
    cbn [out_file out_state load_known_products save_known_products].
    intros k d Hd. destruct (decide (k = "")) as [->|Hk].
    { by rewrite products_dict_empty_key in Hd. }
    split; [done|]. rewrite products_dict_lookup in Hd by done.
    apply fmap_Some in Hd as (q & Hq & ->).
    destruct (last_filter_key_elem _ _ _ Hq) as [Hin Hsku].
    apply list_elem_of_lookup_1 in Hin as [i Hi].
    exists i, q. do 3 (split; [done|]). right.
    cbn. repeat split; by intros ?%elem_of_nil.
  - eexists. rewrite main_run by done. split; [done|].
    cbn [out_file out_state load_known_products save_known_products].
    intros k d Hd. destruct (decide (k = "")) as [->|Hk].
    { by rewrite products_dict_empty_key in Hd. }
    split; [done|]. rewrite products_dict_mutated in Hd by done.
    apply fmap_Some in Hd as (q & Hq & ->).
    destruct (last_filter_key_elem _ _ _ Hq) as [Hin Hsku].
    apply list_elem_of_lookup_1 in Hin as [i Hi].
    exists i, q. do 3 (split; [done|]).
    destruct (classified_record (load_known_products file) _ _ _ Hi)
      as (-> & -> & _ & _).
    cbn [compose]. rewrite mutated_cases.
    destruct (has_verdict _ Restocked q) eqn:ER.
    { left. split; [by left|].
      apply has_verdict_Restocked in ER as (_ & d0 & Hd0 & _).
      rewrite Hsku in Hd0. exists d0. split; [done|].
      cbn [orb]. rewrite as_dict_set_old_stock.
      by rewrite (prior_stock_known _ _ d0) by (by rewrite Hsku). }
    destruct (has_verdict _ Increased q) eqn:EI.
    { left. split; [by right|].
      apply has_verdict_Increased in EI as (_ & d0 & o & Hd0 & _).
      rewrite Hsku in Hd0. exists d0. split; [done|].
      cbn [orb]. rewrite as_dict_set_old_stock.
      by rewrite (prior_stock_known _ _ d0) by (by rewrite Hsku). }
    right. done.
Qed.

End Claims.

(** * Further properties of the cycle *)

Lemma keys_fmap (g : product → product) (l : list product) :
  (∀ p, sku (g p) = sku p) → keys (g <$> l) = keys l.
Proof.
  intros Hg. unfold keys. f_equal. rewrite <- list_fmap_compose.
  apply list_fmap_ext. intros i p _. apply Hg.
Qed.

Lemma products_dict_is_Some l k :
  is_Some (products_dict l !! k) ↔ k ∈ keys l.
Proof.
  destruct (decide (k = "")) as [->|Hk].
  { rewrite products_dict_empty_key. split; [by intros [? ?]|].
    by intros [? _]%elem_of_keys. }
  rewrite products_dict_lookup, fmap_is_Some, last_is_Some, elem_of_keys by done.
  split.
  - intros Hne. split; [done|].
    destruct (filter (λ p, sku p = k) l) as [|q l'] eqn:Hf; [done|].
    exists q.
    assert (q ∈ filter (λ p, sku p = k) l) as Hq
      by (rewrite Hf; apply list_elem_of_here).
    apply list_elem_of_filter in Hq as [? ?]. done.
  - intros (_ & q & Hq & Hsku) Hf.
    by apply (filter_nil_not_elem_of (λ p, sku p = k) l q) in Hf.
Qed.

Lemma as_dict_sku p : as_dict p !! "sku" = Some (VStr (sku p)).
Proof. unfold as_dict. by destruct (old_stock p). Qed.

Lemma elem_of_events_classified known current i :
  i ∈ restocked (classified known current)
      ++ increased_stock (classified known current)
      ++ new_products (classified known current) →
  ∃ p, current !! i = Some p ∧ sku p ≠ "".
Proof.
  cbn [classified restocked increased_stock new_products].
  rewrite !elem_of_app, !elem_of_refs_where_0.
  intros [(p & Hp & Hv)|[(p & Hp & Hv)|(p & Hp & Hv)]]; exists p;
    (split; [done|]).
  - by apply has_verdict_Restocked in Hv as [? _].
  - by apply has_verdict_Increased in Hv as [? _].
  - by apply has_verdict_Added in Hv as [? _].
Qed.

Lemma has_verdict_unique_false known c1 c2 p :
  has_verdict known c1 p = true → c1 ≠ c2 → has_verdict known c2 p = false.
Proof.
  intros H1 Hne. apply not_true_is_false. intros H2.
  by pose proof (has_verdict_unique _ _ _ _ H1 H2).
Qed.

(** ** Messages of a cycle *)

Section Messages.

Variable DISCORD_WEBHOOK : option string.
Variable utcnow : string.
Variable post : list embed → bool.

Lemma send_unconfigured title description color products :
  webhook_configured DISCORD_WEBHOOK = false →
  send_discord_notification DISCORD_WEBHOOK utcnow post
    title description color products = [].
Proof. intros H. unfold send_discord_notification. by rewrite H. Qed.

Lemma cycle_posts_unconfigured st :
  webhook_configured DISCORD_WEBHOOK = false →
  cycle_posts DISCORD_WEBHOOK utcnow post st = [].
Proof.
  intros H. unfold cycle_posts, notify_restocked, notify_increased, notify_new.
  repeat case_match; by rewrite ?send_unconfigured.
Qed.

Lemma head_notify_restocked products :
  webhook_configured DISCORD_WEBHOOK = true →
  head ∘ payload <$> notify_restocked DISCORD_WEBHOOK utcnow post products
  = category_summary utcnow "🔔 RESTOCK ALERT!" " product(s) back in stock!"
      3066993 (length products).
Proof.
  intros H. destruct products; [done|].
  unfold notify_restocked, send_discord_notification. by rewrite H.
Qed.

Lemma head_notify_increased products :
  webhook_configured DISCORD_WEBHOOK = true →
  head ∘ payload <$> notify_increased DISCORD_WEBHOOK utcnow post products
  = category_summary utcnow "📈 Stock Increased" " product(s) got more stock!"
      3447003 (length products).
Proof.
  intros H. destruct products; [done|].
  unfold notify_increased, send_discord_notification. by rewrite H.
Qed.

Lemma head_notify_new products :
  webhook_configured DISCORD_WEBHOOK = true →
  head ∘ payload <$> notify_new DISCORD_WEBHOOK utcnow post products
  = category_summary utcnow "🆕 New Products Added!" " new product(s) available!"
      15844367 (length products).
Proof.
  intros H. destruct products; [done|].
  unfold notify_new, send_discord_notification. by rewrite H.
Qed.

Lemma bounded_send title description color products :
  Forall (λ dl, length (filter (λ e, is_detail e = true) (payload dl)) ≤ 10
                ∧ length (payload dl) ≤ 11)
    (send_discord_notification DISCORD_WEBHOOK utcnow post
       title description color products).
Proof.
  unfold send_discord_notification. destruct webhook_configured; [|done].
  apply Forall_singleton. cbn [payload].
  rewrite details_build_embeds. unfold build_embeds. cbn [length].
  rewrite !length_fmap, length_take. lia.
Qed.

Lemma bounded_cycle_posts st :
  Forall (λ dl, length (filter (λ e, is_detail e = true) (payload dl)) ≤ 10
                ∧ length (payload dl) ≤ 11)
    (cycle_posts DISCORD_WEBHOOK utcnow post st).
Proof.
  unfold cycle_posts, notify_restocked, notify_increased, notify_new.
  repeat apply Forall_app_2; case_match; done || apply bounded_send.
Qed.

Lemma length_send title description color products :
  length (send_discord_notification DISCORD_WEBHOOK utcnow post
            title description color products) ≤ 1.
Proof.
  unfold send_discord_notification. destruct webhook_configured; cbn; lia.
Qed.

Lemma length_cycle_posts st :
  length (cycle_posts DISCORD_WEBHOOK utcnow post st) ≤ 3.
Proof.
  unfold cycle_posts, notify_restocked, notify_increased, notify_new.
  rewrite !length_app.
  pose proof length_send as Hs.
  repeat case_match; cbn [length];
    repeat match goal with
           | |- context [length (send_discord_notification _ _ _ ?t ?d ?c ?l)] =>
             lazymatch goal with
             | H : length (send_discord_notification _ _ _ t d c l) ≤ 1 |- _ => fail
             | _ => pose proof (Hs t d c l)
             end
           end; lia.
Qed.

End Messages.

Lemma length_deref_classified known current c :
  length (deref (mutated known <$> current)
            (refs_where (has_verdict known c) 0 current))
  = length (refs_where (has_verdict known c) 0 current).
Proof. by rewrite deref_classified, length_fmap, length_refs_where. Qed.

(** ** An iteration that raises *)

Lemma for_loop_raises known todo : ∀ pre st,
  objs st = pre ++ todo →
  Exists (λ p, ∃ e, verdict known p = Raise e) todo →
  for_loop known (length todo) (length pre) st = Raise TypeError.
Proof.
  induction todo as [|p todo IH]; intros pre st Hobjs Hex.
  { by apply Exists_nil in Hex. }
  cbn [length for_loop].
  rewrite (loop_body_verdict known (length pre) p st)
    by (rewrite Hobjs; by apply list_lookup_middle).
  destruct (verdict known p) as [v|e] eqn:Hv; cbn.
  - apply Exists_cons in Hex as [[e He]|Hex]; [congruence|].
    specialize (IH (pre ++ [mutated known p])
                   (after_body known (length pre) p st)).
    rewrite length_app in IH. cbn in IH.
    replace (length pre + 1) with (S (length pre)) in IH by lia.
    apply IH; [|done]. rewrite Hobjs, <- app_assoc. cbn.
    by rewrite insert_app_r_alt, Nat.sub_diag by lia.
  - by destruct e.
Qed.

Lemma verdict_ill_typed known p d v :
  sku p ≠ "" →
  known !! sku p = Some d →
  d !! "stock_qty" = Some v →
  (∀ z, v ≠ VInt z) →
  verdict known p = Raise TypeError.
Proof.
  intros Hk Hd Hv Hnot. unfold verdict, dict_get.
  rewrite decide_False, Hd, Hv by done. cbn.
  destruct v as [z| |]; [by destruct (Hnot z)|done..].
Qed.

Section MainCases.

Variable DISCORD_WEBHOOK : option string.
Variable utcnow : string.
Variable post : list embed → bool.

(** The outcome of a cycle that does not raise, path by path. *)
Lemma main_cases file current :
  snapshot_wf (load_known_products file) →
  (current = []
   ∧ main DISCORD_WEBHOOK utcnow post file current
     = Ok (Outcome file (no_events []) []))
  ∨ (current ≠ [] ∧ load_known_products file = ∅
     ∧ main DISCORD_WEBHOOK utcnow post file current
       = Ok (Outcome (save_known_products current) (no_events current) []))
  ∨ (current ≠ [] ∧ load_known_products file ≠ ∅
     ∧ main DISCORD_WEBHOOK utcnow post file current
       = Ok (Outcome
               (save_known_products
                  (mutated (load_known_products file) <$> current))
               (classified (load_known_products file) current)
               (cycle_posts DISCORD_WEBHOOK utcnow post
                  (classified (load_known_products file) current)))).
Proof.
  intros Hwf. destruct current as [|p0 l] eqn:Hcur; [by left|].
  rewrite <- Hcur. assert (current ≠ []) as Hne by (by rewrite Hcur).
  right. destruct (decide (load_known_products file = ∅)) as [He|He].
  - left. by rewrite main_first_run.
  - right. by rewrite main_run.
Qed.

End MainCases.

(** ** Positions in fetch order *)

Lemma refs_where_sorted f (l : list product) : ∀ i,
  StronglySorted lt (refs_where f i l).
Proof.
  induction l as [|q l IH]; intros i; cbn [refs_where]; [constructor|].
  destruct (f q); cbn [app]; [|apply IH].
  constructor; [apply IH|]. apply Forall_forall. intros j Hj.
  apply elem_of_refs_where in Hj as (_ & Hle & _). lia.
Qed.

(** ** Two cycles in a row *)

Lemma products_dict_no_keys l : keys l = [] → products_dict l = ∅.
Proof.
  intros Hk. apply map_eq. intros k. rewrite lookup_empty.
  apply eq_None_not_Some. rewrite products_dict_is_Some, Hk.
  by intros ?%elem_of_nil.
Qed.

Lemma products_dict_has_keys l : keys l ≠ [] → products_dict l ≠ ∅.
Proof.
  intros Hk He. destruct (keys l) as [|k ks] eqn:Hkeys; [done|].
  assert (is_Some (products_dict l !! k)) as [d Hd].
  { apply products_dict_is_Some. rewrite Hkeys. apply list_elem_of_here. }
  by rewrite He, lookup_empty in Hd.
Qed.

Lemma keys_nonempty_list l : keys l ≠ [] → l ≠ [].
Proof. by intros Hk ->. Qed.

Lemma keys_no_sku l : Forall (λ p, sku p = "") l → keys l = [].
Proof.
  induction 1 as [|p l Hp _ IH]; [done|].
  unfold keys in *. rewrite fmap_cons, filter_cons, decide_False, IH; [done|].
  by intros [].
Qed.

Section MainSaves.

Variable DISCORD_WEBHOOK : option string.
Variable utcnow : string.
Variable post : list embed → bool.

(** After a non-empty fetch the file holds the fetched dicts, each with its
    key and quantity as fetched. *)
Lemma main_saves file current :
  snapshot_wf (load_known_products file) →
  current ≠ [] →
  ∃ out (g : product → product),
    main DISCORD_WEBHOOK utcnow post file current = Ok out
    ∧ out_file out = save_known_products (g <$> current)
    ∧ (∀ p, sku (g p) = sku p)
    ∧ (∀ p, stock_qty (g p) = stock_qty p).
Proof.
  intros Hwf Hne.
  destruct (main_cases DISCORD_WEBHOOK utcnow post file current Hwf)
    as [[Hc _]|[(_ & _ & ->)|(_ & _ & ->)]]; [done| |].
  - exists (Outcome (save_known_products current) (no_events current) []), id.
    by rewrite list_fmap_id.
  - eexists _, (mutated (load_known_products file)).
    split; [done|]. split; [done|].
    split; [apply sku_mutated | apply stock_qty_mutated].
Qed.

Lemma main_quiet file current :
  snapshot_wf (load_known_products file) →
  (∀ p c, p ∈ current → has_verdict (load_known_products file) c p = false) →
  ∃ out, main DISCORD_WEBHOOK utcnow post file current = Ok out
    ∧ restocked (out_state out) = []
    ∧ increased_stock (out_state out) = []
    ∧ new_products (out_state out) = []
    ∧ out_posts out = []
    ∧ (current ≠ [] → out_file out = save_known_products current).
Proof.
  intros Hwf Hq.
  destruct (main_cases DISCORD_WEBHOOK utcnow post file current Hwf)
    as [[Hc ->]|[(Hc & _ & ->)|(Hc & _ & ->)]]; eexists; (split; [done|]).
  - done.
  - done.
  - rewrite classified_quiet, mutated_none by done. done.
Qed.

End MainSaves.

Section MainRuns.

Variable DISCORD_WEBHOOK : option string.
Variable utcnow : string.
Variable post : list embed → bool.

(** The loop only reads the stored records of the keys it is given. *)
Lemma main_run_fetched file current :
  current ≠ [] →
  load_known_products file ≠ ∅ →
  Forall (runs (load_known_products file)) current →
  main DISCORD_WEBHOOK utcnow post file current
  = Ok (Outcome
          (save_known_products (mutated (load_known_products file) <$> current))
          (classified (load_known_products file) current)
          (cycle_posts DISCORD_WEBHOOK utcnow post
             (classified (load_known_products file) current))).
Proof.
  intros Hne Hknown Hruns. unfold main. destruct current as [|p l]; [done|].
  rewrite decide_False by done.
  by rewrite classify_run.
Qed.

End MainRuns.

Lemma runs_typed_entry known p :
  (∀ d v, known !! sku p = Some d → d !! "stock_qty" = Some v →
          ∃ z, v = VInt z) →
  runs known p.
Proof.
  intros Hty. unfold runs, verdict.
  destruct (decide (sku p = "")); [by eauto|].
  destruct (known !! sku p) as [d|] eqn:Hd; [|by eauto].
  unfold dict_get. destruct (d !! "stock_qty") as [v|] eqn:Hv; [|by eauto].
  destruct (Hty d v eq_refl Hv) as [z ->]. cbn. by eauto.
Qed.

Section Extras.

Variable DISCORD_WEBHOOK : option string.
Variable utcnow : string.
Variable post : list embed → bool.

(** X1.  Delisting.  After a non-empty fetch the keys of the snapshot
    written are exactly the non-empty [sku] values of the fetch: a key that
    was tracked and is no longer fetched is dropped.  Every event refers to
    a fetched record with a key, so a dropped key raises no event. *)
Theorem snapshot_keys_are_fetched_keys (file : file_state)
    (current_products : list product) :
  snapshot_wf (load_known_products file) →
  current_products ≠ [] →
  ∃ out, main DISCORD_WEBHOOK utcnow post file current_products = Ok out
    ∧ (∀ k, is_Some (load_known_products (out_file out) !! k)
            ↔ k ∈ keys current_products)
    ∧ (∀ i, i ∈ restocked (out_state out) ++ increased_stock (out_state out)
                ++ new_products (out_state out) →
            ∃ p, current_products !! i = Some p ∧ sku p ≠ "").
Proof.
  intros Hwf Hne.
  destruct (main_cases DISCORD_WEBHOOK utcnow post file current_products Hwf)
    as [[? _]|[(_ & _ & ->)|(_ & _ & ->)]]; [done| |]; eexists;
    (split; [done|]); cbn [out_file out_state load_known_products
                           save_known_products].
  - split; [intros k; apply products_dict_is_Some|].
    cbn. by intros i ?%elem_of_nil.
  - split; [|apply elem_of_events_classified].
    intros k. rewrite products_dict_is_Some.
    by rewrite (keys_fmap _ _ (sku_mutated _)).
Qed.

(** X2.  A fetched record without SKU takes no part in the cycle: it raises
    no event, its dict is left as fetched, and it is not saved; no dict of
    the snapshot written has an empty [sku]. *)
Theorem record_without_sku_is_ignored (file : file_state)
    (current_products : list product) (i : nat) (p : product) :
  snapshot_wf (load_known_products file) →
  current_products !! i = Some p →
  sku p = "" →
  ∃ out, main DISCORD_WEBHOOK utcnow post file current_products = Ok out
    ∧ (i ∉ restocked (out_state out))
    ∧ (i ∉ increased_stock (out_state out))
    ∧ (i ∉ new_products (out_state out))
    ∧ objs (out_state out) !! i = Some p
    ∧ load_known_products (out_file out) !! "" = None
    ∧ (∀ k d, load_known_products (out_file out) !! k = Some d →
              ∃ s, d !! "sku" = Some (VStr s) ∧ s ≠ "").
Proof.
  intros Hwf Hi Hk. pose proof (lookup_nonempty _ _ _ Hi) as Hne.
  destruct (main_cases DISCORD_WEBHOOK utcnow post file current_products Hwf)
    as [[? _]|[(_ & _ & ->)|(_ & _ & ->)]]; [done| |]; eexists;
    (split; [done|]); cbn [out_file out_state load_known_products
                           save_known_products].
  - cbn [no_events restocked increased_stock new_products objs].
    do 3 (split; [by intros ?%elem_of_nil|]). split; [done|].
    split; [apply products_dict_empty_key|].
    intros k d Hd. destruct (decide (k = "")) as [->|Hne'].
    { by rewrite products_dict_empty_key in Hd. }
    rewrite products_dict_lookup in Hd by done.
    apply fmap_Some in Hd as (q & Hq & ->).
    apply last_filter_key_elem in Hq as [_ Hq].
    exists (sku q). split; [apply as_dict_sku | by rewrite Hq].
  - destruct (classified_record (load_known_products file) _ _ _ Hi)
      as (-> & -> & -> & ->).
    rewrite !(empty_key_no_verdict _ _ _ Hk).
    do 3 (split; [done|]).
    rewrite mutated_cases, !(empty_key_no_verdict _ _ _ Hk).
    split; [done|]. split; [apply products_dict_empty_key|].
    intros k d Hd. destruct (decide (k = "")) as [->|Hne'].
    { by rewrite products_dict_empty_key in Hd. }
    rewrite products_dict_mutated in Hd by done.
    apply fmap_Some in Hd as (q & Hq & ->).
    apply last_filter_key_elem in Hq as [_ Hq].
    exists (sku q). cbn [compose].
    split; [by rewrite as_dict_sku, sku_mutated | by rewrite Hq].
Qed.

(** X3.  Classification and the snapshot written do not depend on the
    webhook, the clock or the transport: two cycles on the same file and
    fetch end in the same events and the same file.  With the webhook unset
    or empty no delivery is attempted at all. *)
Theorem cycle_independent_of_webhook (hook' : option string)
    (utcnow' : string) (post' : list embed → bool) (file : file_state)
    (current_products : list product) :
  snapshot_wf (load_known_products file) →
  ∃ out out',
    main DISCORD_WEBHOOK utcnow post file current_products = Ok out
    ∧ main hook' utcnow' post' file current_products = Ok out'
    ∧ out_state out' = out_state out
    ∧ out_file out' = out_file out
    ∧ (DISCORD_WEBHOOK = None ∨ DISCORD_WEBHOOK = Some "" →
         out_posts out = []).
Proof.
  intros Hwf.
  destruct (main_cases DISCORD_WEBHOOK utcnow post file current_products Hwf)
    as [[Hc ->]|[(Hc & He & ->)|(Hc & He & ->)]].
  - subst. do 2 eexists. by rewrite main_no_data.
  - do 2 eexists. by rewrite main_first_run.
  - do 2 eexists. rewrite main_run by done. do 4 (split; [done|]).
    intros Hhook. apply cycle_posts_unconfigured. by destruct Hhook as [->| ->].
Qed.


(** X5.  What the detail embed of an event shows.  For a restocked record
    the fields are the stock change from 0, the stock and the price; for a
    record with increased stock the change starts from a positive quantity
    below the fetched one; for a new record, scraped without [old_stock],
    only the stock and the price. *)
Theorem event_detail_fields (file : file_state)
    (current_products : list product) (color : Z) :
  snapshot_wf (load_known_products file) →
  ∃ out, main DISCORD_WEBHOOK utcnow post file current_products = Ok out
    ∧ ∀ i p, current_products !! i = Some p →
        ∃ p', objs (out_state out) !! i = Some p'
          ∧ (i ∈ restocked (out_state out) →
               embed_fields (product_embed color p')
               = [EmbedField "Stock Change"
                    ("0 → " +:+ pretty (stock_qty p)) true;
                  EmbedField "Stock"
                    ("**" +:+ pretty (stock_qty p) +:+ "** available") true;
                  EmbedField "Price" (price p) true])
          ∧ (i ∈ increased_stock (out_state out) →
               ∃ o, (0 < o ∧ o < stock_qty p)%Z
                 ∧ embed_fields (product_embed color p')
                   = [EmbedField "Stock Change"
                        (pretty o +:+ " → " +:+ pretty (stock_qty p)) true;
                      EmbedField "Stock"
                        ("**" +:+ pretty (stock_qty p) +:+ "** available")
                        true;
                      EmbedField "Price" (price p) true])
          ∧ (i ∈ new_products (out_state out) → old_stock p = None →
               embed_fields (product_embed color p')
               = [EmbedField "Stock"
                    ("**" +:+ pretty (stock_qty p) +:+ "** available") true;
                  EmbedField "Price" (price p) true]).
Proof.
  intros Hwf.
  destruct (main_cases DISCORD_WEBHOOK utcnow post file current_products Hwf)
    as [[Hc ->]|[(Hc & He & ->)|(Hc & He & ->)]];
    eexists; (split; [done|]); cbn [out_state]; intros i p Hi.
  - by subst.
  - exists p. split; [done|]. cbn. repeat split; by intros ?%elem_of_nil.
  - destruct (classified_record (load_known_products file) _ _ _ Hi)
      as (HR' & HI' & HA' & Hobj).
    eexists. split; [done|]. rewrite HR', HI', HA', mutated_cases.
    repeat split.
    + intros HR. rewrite HR. cbn [orb].
      apply has_verdict_Restocked in HR as (_ & d & Hd & Hget & _).
      by rewrite (prior_stock_known _ _ _ Hd), Hget.
    + intros HI. rewrite HI, orb_true_r.
      apply has_verdict_Increased in HI as (_ & d & o & Hd & Hget & Ho).
      exists o. split; [done|].
      by rewrite (prior_stock_known _ _ _ Hd), Hget.
    + intros HA Hnone.
      rewrite (has_verdict_unique_false _ _ _ _ HA) by done.
      rewrite (has_verdict_unique_false _ Added Increased _ HA) by done.
      cbn [orb]. unfold product_embed. by rewrite Hnone.
Qed.

(** X6.  A stored [stock_qty] that is a string or [null] is not covered by
    the default of [get]: when a fetched record has such a key, the
    comparison at line 200 raises [TypeError], which nothing catches, so the
    cycle ends without a message and without saving. *)
Theorem ill_typed_stored_stock_raises (file : file_state)
    (current_products : list product) (i : nat) (p : product) (d : pydict)
    (v : value) :
  current_products !! i = Some p →
  sku p ≠ "" →
  load_known_products file !! sku p = Some d →
  d !! "stock_qty" = Some v →
  (∀ z, v ≠ VInt z) →
  main DISCORD_WEBHOOK utcnow post file current_products = Raise TypeError.
Proof.
  intros Hi Hk Hd Hv Hnot. unfold main.
  destruct current_products as [|p0 l] eqn:Hcur; [done|]. rewrite <- Hcur in *.
  rewrite decide_False by (by eapply known_nonempty).
  unfold classify.
  rewrite (for_loop_raises _ current_products [] (LoopState current_products [] [] []));
    [done..|].
  apply Exists_exists. exists p. split; [by eapply list_elem_of_lookup_2|].
  exists TypeError. by eapply verdict_ill_typed.
Qed.


(** X8.  A key that one fetch misses is forgotten.  When a fetch with at
    least one key does not hold the key of [p], and the next fetch holds
    [p] in stock, the second cycle reports [p] as new, whatever was tracked
    for its key before. *)
Theorem relisted_key_alerts_as_new (file : file_state)
    (first_fetch second_fetch : list product) (i : nat) (p : product) :
  snapshot_wf (load_known_products file) →
  keys first_fetch ≠ [] →
  sku p ∉ keys first_fetch →
  second_fetch !! i = Some p →
  sku p ≠ "" →
  (0 < stock_qty p)%Z →
  ∃ out1 out2,
    main DISCORD_WEBHOOK utcnow post file first_fetch = Ok out1
    ∧ main DISCORD_WEBHOOK utcnow post (out_file out1) second_fetch = Ok out2
    ∧ i ∈ new_products (out_state out2)
    ∧ (i ∉ restocked (out_state out2))
    ∧ (i ∉ increased_stock (out_state out2)).
Proof.
  intros Hwf Hkeys Hfresh Hi Hk Hpos.
  destruct (main_saves DISCORD_WEBHOOK utcnow post file first_fetch Hwf
              (keys_nonempty_list _ Hkeys)) as (out1 & g & Hm & Hfile & Hg & _).
  exists out1. eexists. split; [done|]. rewrite Hfile.
  rewrite main_run.
  2: by eapply lookup_nonempty.
  2: { cbn. apply products_dict_has_keys. by rewrite keys_fmap. }
  2: apply snapshot_wf_products_dict.
  split; [done|]. cbn [out_state].
  destruct (classified_record
              (load_known_products (save_known_products (g <$> first_fetch)))
              _ _ _ Hi) as (-> & -> & -> & _).
  assert (load_known_products (save_known_products (g <$> first_fetch))
          !! sku p = None) as Hnone.
  { cbn. apply products_dict_lookup_fresh; [done|]. by rewrite keys_fmap. }
  destruct (unknown_verdicts _ _ Hk Hnone) as (-> & -> & ->). done.
Qed.

(** X9.  A non-empty fetch in which no record has an SKU saves the empty
    snapshot and raises no event; the next cycle then finds no prior state
    and is a first run again: whatever it fetches, it raises no event and
    sends nothing. *)
Theorem fetch_without_skus_resets_baseline (file : file_state)
    (first_fetch second_fetch : list product) :
  snapshot_wf (load_known_products file) →
  first_fetch ≠ [] →
  Forall (λ p, sku p = "") first_fetch →
  ∃ out1 out2,
    main DISCORD_WEBHOOK utcnow post file first_fetch = Ok out1
    ∧ load_known_products (out_file out1) = ∅
    ∧ restocked (out_state out1) ++ increased_stock (out_state out1)
      ++ new_products (out_state out1) = []
    ∧ main DISCORD_WEBHOOK utcnow post (out_file out1) second_fetch = Ok out2
    ∧ restocked (out_state out2) ++ increased_stock (out_state out2)
      ++ new_products (out_state out2) = []
    ∧ out_posts out2 = [].
Proof.
  intros Hwf Hne Hall.
  destruct (main_quiet DISCORD_WEBHOOK utcnow post file first_fetch Hwf)
    as (out1 & Hm & HR & HI & HA & _ & Hfile).
  { intros p c Hp. apply empty_key_no_verdict.
    by eapply Forall_forall in Hall. }
  exists out1. rewrite HR, HI, HA, (Hfile Hne).
  assert (load_known_products (save_known_products first_fetch) = ∅) as He.
  { cbn. by apply products_dict_no_keys, keys_no_sku. }
  destruct second_fetch as [|p0 l] eqn:Hsnd.
  - eexists. rewrite main_no_data.
    split; [exact Hm|]. split; [exact He|]. split; [done|].
    split; [reflexivity|]. by split.
  - eexists.
    rewrite (main_first_run _ _ _ (save_known_products first_fetch))
      by done.
    split; [exact Hm|]. split; [exact He|]. split; [done|].
    split; [reflexivity|]. by split.
Qed.

(** X10.  Within each category the events follow the fetch: the references
    of each list are in strictly increasing position, all inside the fetched
    list, so the detail embeds of a message are those of the first ten
    events of its category in catalogue order. *)
Theorem events_keep_fetch_order (file : file_state)
    (current_products : list product) :
  snapshot_wf (load_known_products file) →
  ∃ out, main DISCORD_WEBHOOK utcnow post file current_products = Ok out
    ∧ StronglySorted lt (restocked (out_state out))
    ∧ StronglySorted lt (increased_stock (out_state out))
    ∧ StronglySorted lt (new_products (out_state out))
    ∧ Forall (λ i, i < length current_products)
             (restocked (out_state out) ++ increased_stock (out_state out)
              ++ new_products (out_state out))
    ∧ length (objs (out_state out)) = length current_products.
Proof.
  intros Hwf.
  destruct (main_cases DISCORD_WEBHOOK utcnow post file current_products Hwf)
    as [[Hc ->]|[(Hc & _ & ->)|(Hc & _ & ->)]]; eexists; (split; [done|]).
  - subst. cbn. repeat split; constructor.
  - cbn. repeat split; constructor.
  - cbn [out_state classified restocked increased_stock new_products objs].
    do 3 (split; [apply refs_where_sorted|]).
    split; [|by rewrite length_fmap].
    apply Forall_forall. intros i Hi.
    apply (elem_of_events_classified (load_known_products file)) in Hi
      as (p & Hp & _).
    by eapply lookup_lt_Some.
Qed.

(** X11.  The snapshot has no history.  Whatever the file held before, the
    cycle after a fetch compares each record with the last record of that
    fetch under the same key: restocked when that one stood at 0 and the
    new quantity is positive, increased when that one was positive and the
    new quantity is larger, and never new. *)
Theorem next_cycle_compares_with_last_fetch (file : file_state)
    (first_fetch second_fetch : list product) (q : product) (i : nat)
    (p : product) :
  snapshot_wf (load_known_products file) →
  last (filter (λ r, sku r = sku p) first_fetch) = Some q →
  second_fetch !! i = Some p →
  sku p ≠ "" →
  ∃ out1 out2,
    main DISCORD_WEBHOOK utcnow post file first_fetch = Ok out1
    ∧ main DISCORD_WEBHOOK utcnow post (out_file out1) second_fetch = Ok out2
    ∧ (i ∈ restocked (out_state out2)
       ↔ (stock_qty q = 0 ∧ 0 < stock_qty p)%Z)
    ∧ (i ∈ increased_stock (out_state out2)
       ↔ (0 < stock_qty q ∧ stock_qty q < stock_qty p)%Z)
    ∧ (i ∉ new_products (out_state out2)).
Proof.
  intros Hwf Hlast Hi Hk.
  assert (first_fetch ≠ []) as Hne.
  { intros ->. by rewrite filter_nil in Hlast. }
  destruct (main_saves DISCORD_WEBHOOK utcnow post file first_fetch Hwf Hne)
    as (out1 & g & Hm & Hfile & Hg & Hs).
  exists out1. eexists. split; [done|]. rewrite Hfile.
  assert (load_known_products (save_known_products (g <$> first_fetch))
          !! sku p = Some (as_dict (g q))) as Hd.
  { cbn. by rewrite products_dict_lookup, filter_key_fmap, fmap_last, Hlast. }
  rewrite main_run.
  2: by eapply lookup_nonempty.
  2: by eapply known_nonempty.
  2: apply snapshot_wf_products_dict.
  split; [done|]. cbn [out_state].
  destruct (classified_record
              (load_known_products (save_known_products (g <$> first_fetch)))
              _ _ _ Hi) as (-> & -> & -> & _).
  assert (dict_get (as_dict (g q)) "stock_qty" (VInt 0) = VInt (stock_qty q))
    as Hget.
  { unfold dict_get. by rewrite as_dict_stock, Hs. }
  destruct (known_verdicts _ _ _ _ Hk Hd Hget) as (-> & -> & ->). done.
Qed.

(** X12.  Only the stored records of fetched keys are read.  When the
    stored quantity of every fetched key is an integer or absent, a cycle
    on a non-empty fetch completes even if other entries of the file are
    ill-typed; those entries are dropped with the other keys that are no
    longer fetched, and the file written has integer quantities only. *)
Theorem unfetched_ill_typed_entries_are_dropped (file : file_state)
    (current_products : list product) :
  current_products ≠ [] →
  (∀ p d v, p ∈ current_products
     → load_known_products file !! sku p = Some d
     → d !! "stock_qty" = Some v → ∃ z, v = VInt z) →
  ∃ out, main DISCORD_WEBHOOK utcnow post file current_products = Ok out
    ∧ snapshot_wf (load_known_products (out_file out))
    ∧ (∀ k, is_Some (load_known_products (out_file out) !! k)
            ↔ k ∈ keys current_products).
Proof.
  intros Hne Hty.
  destruct (decide (load_known_products file = ∅)) as [He|He].
  - eexists. rewrite main_first_run by done. split; [done|].
    split; [apply snapshot_wf_products_dict|].
    intros k. apply products_dict_is_Some.
  - eexists. rewrite main_run_fetched; [|done..|].
    + split; [done|]. split; [apply snapshot_wf_products_dict|].
      intros k. cbn [out_file load_known_products save_known_products].
      rewrite products_dict_is_Some.
      by rewrite (keys_fmap _ _ (sku_mutated _)).
    + apply Forall_forall. intros p Hp. apply runs_typed_entry.
      intros d v. by apply Hty.
Qed.

End Extras.

(** * Concrete runs *)

(** C1, counterexample.  Eleven untracked listings in stock, a snapshot that
    tracks one other listing, a webhook that accepts everything: the cycle
    raises eleven [Added] events and sends one message, with ten detail
    blocks, none of them for the eleventh listing. *)
Lemma eleven_added_one_message :
  ∃ out,
    main sample_webhook sample_time always_delivered
         (tracked "OP00" 3) eleven_cards = Ok out
    ∧ length (new_products (out_state out)) = 11
    ∧ length (out_posts out) = 1
    ∧ (∀ dl, dl ∈ out_posts out →
         length (filter (λ e, is_detail e = true) (payload dl)) = 10
         ∧ product_embed 15844367 (card "OP11" 11) ∉ payload dl)
    ∧ ¬ (length (out_posts out) = 2).
Proof.
  eexists. rewrite main_run.
  2: done.
  2: by apply (products_dict_nonempty _ (card "OP00" 3));
       [apply list_elem_of_here|].
  2: apply snapshot_wf_products_dict.
  split; [reflexivity|]. cbn [out_state out_posts].
  split; [by vm_compute|]. split; [by vm_compute|].
  split; [|by vm_compute].
  intros dl Hdl. vm_compute in Hdl.
  apply list_elem_of_singleton in Hdl as ->. split; [by vm_compute|].
  apply (bool_decide_unpack _). by vm_compute.
Qed.

(** C2, counterexample.  The snapshot tracks one listing at quantity 0 and
    the fetch holds two records with its key, both in stock: the cycle
    raises two [Restocked] events for the one key. *)
Lemma duplicate_key_two_events :
  ∃ out,
    main sample_webhook sample_time always_delivered
         (tracked "OP01" 0) [card "OP01" 5; card "OP01" 3] = Ok out
    ∧ restocked (out_state out) = [0; 1]
    ∧ sku <$> deref (objs (out_state out)) (restocked (out_state out))
      = ["OP01"; "OP01"]
    ∧ ¬ (length (restocked (out_state out) ++ increased_stock (out_state out)
                 ++ new_products (out_state out)) ≤ 1).
Proof.
  eexists. rewrite main_run.
  2: done.
  2: by apply (products_dict_nonempty _ (card "OP01" 0));
       [apply list_elem_of_here|].
  2: apply snapshot_wf_products_dict.
  split; [reflexivity|]. cbn [out_state].
  split; [by vm_compute|]. split; [by vm_compute|].
  vm_compute. lia.
Qed.


(** C7, counterexample.  One listing tracked at quantity 0 is fetched at
    quantity 5: the dict stored for it is not the fetched dict, it has the
    key [old_stock], which the fetched dict lacks. *)
Lemma restock_persists_old_stock :
  ∃ out,
    main sample_webhook sample_time always_delivered
         (tracked "OP01" 0) [card "OP01" 5] = Ok out
    ∧ load_known_products (out_file out) !! "OP01"
      ≠ Some (as_dict (card "OP01" 5))
    ∧ as_dict (card "OP01" 5) !! "old_stock" = None
    ∧ ∃ d, load_known_products (out_file out) !! "OP01" = Some d
        ∧ d !! "old_stock" = Some (VInt 0).
Proof.
  assert (mutated (products_dict [card "OP01" 0]) (card "OP01" 5)
          = set_old_stock (VInt 0) (card "OP01" 5)) as Hm
    by (vm_compute; reflexivity).
  assert (products_dict (mutated (products_dict [card "OP01" 0])
                           <$> [card "OP01" 5]) !! "OP01"
          = Some (<["old_stock" := VInt 0]> (as_dict (card "OP01" 5)))) as Hl.
  { rewrite products_dict_mutated by done.
    rewrite filter_cons_True by reflexivity. rewrite filter_nil.
    cbn [last fmap option_fmap option_map compose].
    by rewrite Hm, as_dict_set_old_stock. }
  assert (as_dict (card "OP01" 5) !! "old_stock" = None) as Hnone
    by (vm_compute; reflexivity).
  eexists. rewrite main_run.
  2: done.
  2: by apply (products_dict_nonempty _ (card "OP01" 0));
       [apply list_elem_of_here|].
  2: apply snapshot_wf_products_dict.
  split; [reflexivity|].
  unfold tracked.
  cbn [out_file load_known_products save_known_products]. rewrite Hl.
  split.
  { intros Heq.
    pose proof (f_equal (λ o : option pydict, d ← o; d !! "old_stock") Heq)
      as Hold.
    cbn [mbind option_bind] in Hold.
    by rewrite lookup_insert_eq, Hnone in Hold. }
  split; [done|]. eexists. split; [done|]. by rewrite lookup_insert_eq.
Qed.

Lemma batching_truncates_at_ten_witness :
  webhook_configured sample_webhook = true
  ∧ ∃ embeds,
      send_discord_notification sample_webhook sample_time always_delivered
        "🆕 New Products Added!" "11 new product(s) available!" 15844367
        eleven_cards = [Delivery embeds (always_delivered embeds)]
      ∧ filter (λ e, is_detail e = true) embeds
        = product_embed 15844367 <$> take 10 eleven_cards
      ∧ length (filter (λ e, is_detail e = true) embeds)
        = 10 `min` length eleven_cards
      ∧ (length eleven_cards = 11 →
           length (filter (λ e, is_detail e = true) embeds) = 10)
      ∧ (eleven_cards ≠ [] →
           notify_new sample_webhook sample_time always_delivered eleven_cards
           = send_discord_notification sample_webhook sample_time
               always_delivered "🆕 New Products Added!"
               (pretty (length eleven_cards) +:+ " new product(s) available!")
               15844367 eleven_cards).
Proof.
  split; [reflexivity|].
  apply (batching_truncates_at_ten sample_webhook sample_time always_delivered).
  reflexivity.
Defined.

(** ** The hypotheses of the claims hold on sample data *)




Lemma new_record_added_iff_in_stock_witness :
  (snapshot_wf (load_known_products (tracked "OP00" 3)))
  ∧   ([card "OP01" 0] !! 0 = Some (card "OP01" 0))
  ∧   (sku (card "OP01" 0) ≠ "")
  ∧   (load_known_products (tracked "OP00" 3) !! sku (card "OP01" 0) = None)
  ∧ (∃ st, classify (load_known_products (tracked "OP00" 3)) [card "OP01" 0]
    = Ok st
    ∧ NoDup (restocked st ++ increased_stock st ++ new_products st)
    ∧ (0 ∈ new_products st ↔ (0 < stock_qty (card "OP01" 0))%Z)
    ∧ (0 ∉ restocked st)
    ∧ (0 ∉ increased_stock st)
    ∧ objs st !! 0 = Some (card "OP01" 0)
    ∧ ∃ out, main sample_webhook sample_time always_delivered (tracked
      "OP00" 3) [card "OP01" 0] = Ok out
        ∧ (load_known_products (tracked "OP00" 3) ≠ ∅ → out_state out = st)
        ∧ ∃ q, last (filter (λ r, sku r = sku (card "OP01" 0)) [card "OP01"
          0]) = Some q
            ∧ load_known_products (out_file out) !! sku (card "OP01" 0) =
              Some (as_dict q)).
Proof.
  assert (snapshot_wf (load_known_products (tracked "OP00" 3))) as H1
    by (apply (bool_decide_unpack _); vm_compute; exact I).
  assert ([card "OP01" 0] !! 0 = Some (card "OP01" 0)) as H2
    by (reflexivity).
  assert (sku (card "OP01" 0) ≠ "") as H3
    by (done).
  assert (load_known_products (tracked "OP00" 3) !! sku (card "OP01" 0) =
    None) as H4
    by (vm_compute; reflexivity).
  exact (conj H1 (conj H2 (conj H3 (conj H4 (new_record_added_iff_in_stock
    sample_webhook sample_time always_delivered (tracked "OP00" 3) [card
    "OP01" 0] 0 (card "OP01" 0) H1 H2 H3 H4))))).
Defined.


Lemma one_event_per_record_witness :
  (snapshot_wf (load_known_products (tracked "OP01" 0)))
  ∧ (∃ st, classify (load_known_products (tracked "OP01" 0)) [card "OP01" 5;
    card "OP01" 3] = Ok st
    ∧ NoDup (restocked st ++ increased_stock st ++ new_products st)
    ∧ (∀ k, length (filter (λ r, sku r = k)
                      (deref (objs st)
                         (restocked st ++ increased_stock st
                          ++ new_products st)))
            ≤ length (filter (λ r, sku r = k) [card "OP01" 5; card "OP01" 3]))
    ∧ (∀ i p, [card "OP01" 5; card "OP01" 3] !! i = Some p →
         ∃ alone, classify (load_known_products (tracked "OP01" 0)) [p] = Ok
           alone
           ∧ (i ∈ restocked st ↔ 0 ∈ restocked alone)
           ∧ (i ∈ increased_stock st ↔ 0 ∈ increased_stock alone)
           ∧ (i ∈ new_products st ↔ 0 ∈ new_products alone))
    ∧ sku <$> objs st = sku <$> [card "OP01" 5; card "OP01" 3]
    ∧ (∀ k, k ≠ "" →
         load_known_products (save_known_products (objs st)) !! k
         = as_dict <$> last (filter (λ r, sku r = k) (objs st)))
    ∧ ([card "OP01" 5; card "OP01" 3] ≠ [] → load_known_products (tracked
      "OP01" 0) ≠ ∅ →
         ∃ out, main sample_webhook sample_time always_delivered (tracked
           "OP01" 0) [card "OP01" 5; card "OP01" 3] = Ok out
           ∧ out_state out = st
           ∧ out_file out = save_known_products (objs st))).
Proof.
  assert (snapshot_wf (load_known_products (tracked "OP01" 0))) as H1
    by (apply (bool_decide_unpack _); vm_compute; exact I).
  exact (conj H1 (one_event_per_record sample_webhook sample_time
    always_delivered (tracked "OP01" 0) [card "OP01" 5; card "OP01" 3] H1)).
Defined.


Lemma persisted_record_shape_witness :
  (snapshot_wf (load_known_products (tracked "OP01" 0)))
  ∧   ([card "OP01" 5] ≠ [])
  ∧ (∃ out, main sample_webhook sample_time always_delivered (tracked "OP01"
    0) [card "OP01" 5] = Ok out
    ∧ ∀ k d, load_known_products (out_file out) !! k = Some d →
        k ≠ ""
        ∧ ∃ i q, [card "OP01" 5] !! i = Some q
            ∧ sku q = k
            ∧ last (filter (λ r, sku r = k) [card "OP01" 5]) = Some q
            ∧ (((i ∈ restocked (out_state out)
                 ∨ i ∈ increased_stock (out_state out))
                ∧ ∃ d0, load_known_products (tracked "OP01" 0) !! k = Some d0
                    ∧ d = <["old_stock" := dict_get d0 "stock_qty" (VInt 0)]>
                            (as_dict q))
               ∨ ((i ∉ restocked (out_state out))
                  ∧ (i ∉ increased_stock (out_state out))
                  ∧ d = as_dict q))).
Proof.
  assert (snapshot_wf (load_known_products (tracked "OP01" 0))) as H1
    by (apply (bool_decide_unpack _); vm_compute; exact I).
  assert ([card "OP01" 5] ≠ []) as H2
    by (done).
  exact (conj H1 (conj H2 (persisted_record_shape sample_webhook sample_time
    always_delivered (tracked "OP01" 0) [card "OP01" 5] H1 H2))).
Defined.

(** ** The hypotheses of the further properties hold on sample data *)

Lemma snapshot_keys_are_fetched_keys_witness :
  (snapshot_wf (load_known_products (tracked "OP01" 3)))
  ∧   ([card "OP02" 1] ≠ [])
  ∧ (∃ out, main sample_webhook sample_time always_delivered (tracked "OP01"
    3) [card "OP02" 1] = Ok out
    ∧ (∀ k, is_Some (load_known_products (out_file out) !! k)
            ↔ k ∈ keys [card "OP02" 1])
    ∧ (∀ i, i ∈ restocked (out_state out) ++ increased_stock (out_state out)
                ++ new_products (out_state out) →
            ∃ p, [card "OP02" 1] !! i = Some p ∧ sku p ≠ "")).
Proof.
  assert (snapshot_wf (load_known_products (tracked "OP01" 3))) as H1
    by (apply (bool_decide_unpack _); vm_compute; exact I).
  assert ([card "OP02" 1] ≠ []) as H2
    by (done).
  exact (conj H1 (conj H2 (snapshot_keys_are_fetched_keys sample_webhook
    sample_time always_delivered (tracked "OP01" 3) [card "OP02" 1] H1 H2))).
Defined.

Lemma record_without_sku_is_ignored_witness :
  (snapshot_wf (load_known_products (tracked "OP01" 3)))
  ∧   ([card "" 4] !! 0 = Some (card "" 4))
  ∧   (sku (card "" 4) = "")
  ∧ (∃ out, main sample_webhook sample_time always_delivered (tracked "OP01"
    3) [card "" 4] = Ok out
    ∧ (0 ∉ restocked (out_state out))
    ∧ (0 ∉ increased_stock (out_state out))
    ∧ (0 ∉ new_products (out_state out))
    ∧ objs (out_state out) !! 0 = Some (card "" 4)
    ∧ load_known_products (out_file out) !! "" = None
    ∧ (∀ k d, load_known_products (out_file out) !! k = Some d →
              ∃ s, d !! "sku" = Some (VStr s) ∧ s ≠ "")).
Proof.
  assert (snapshot_wf (load_known_products (tracked "OP01" 3))) as H1
    by (apply (bool_decide_unpack _); vm_compute; exact I).
  assert ([card "" 4] !! 0 = Some (card "" 4)) as H2
    by (reflexivity).
  assert (sku (card "" 4) = "") as H3
    by (reflexivity).
  exact (conj H1 (conj H2 (conj H3 (record_without_sku_is_ignored
    sample_webhook sample_time always_delivered (tracked "OP01" 3) [card "" 4]
    0 (card "" 4) H1 H2 H3)))).
Defined.

Lemma cycle_independent_of_webhook_witness :
  (snapshot_wf (load_known_products (tracked "OP01" 0)))
  ∧ (∃ out out',
    main sample_webhook sample_time always_delivered (tracked "OP01" 0)
      [card "OP01" 5] = Ok out
    ∧ main None "2024-05-02T08:00:00" never_delivered (tracked "OP01" 0)
      [card "OP01" 5] = Ok out'
    ∧ out_state out' = out_state out
    ∧ out_file out' = out_file out
    ∧ (sample_webhook = None ∨ sample_webhook = Some "" →
         out_posts out = [])).
Proof.
  assert (snapshot_wf (load_known_products (tracked "OP01" 0))) as H1
    by (apply (bool_decide_unpack _); vm_compute; exact I).
  exact (conj H1 (cycle_independent_of_webhook sample_webhook sample_time
    always_delivered None "2024-05-02T08:00:00" never_delivered (tracked
    "OP01" 0) [card "OP01" 5] H1)).
Defined.


Lemma event_detail_fields_witness :
  (snapshot_wf (load_known_products (tracked "OP01" 0)))
  ∧ (∃ out, main sample_webhook sample_time always_delivered (tracked "OP01"
    0) [card "OP01" 5] = Ok out
    ∧ ∀ i p, [card "OP01" 5] !! i = Some p →
        ∃ p', objs (out_state out) !! i = Some p'
          ∧ (i ∈ restocked (out_state out) →
               embed_fields (product_embed 3066993%Z p')
               = [EmbedField "Stock Change"
                    ("0 → " +:+ pretty (stock_qty p)) true;
                  EmbedField "Stock"
                    ("**" +:+ pretty (stock_qty p) +:+ "** available") true;
                  EmbedField "Price" (price p) true])
          ∧ (i ∈ increased_stock (out_state out) →
               ∃ o, (0 < o ∧ o < stock_qty p)%Z
                 ∧ embed_fields (product_embed 3066993%Z p')
                   = [EmbedField "Stock Change"
                        (pretty o +:+ " → " +:+ pretty (stock_qty p)) true;
                      EmbedField "Stock"
                        ("**" +:+ pretty (stock_qty p) +:+ "** available")
                        true;
                      EmbedField "Price" (price p) true])
          ∧ (i ∈ new_products (out_state out) → old_stock p = None →
               embed_fields (product_embed 3066993%Z p')
               = [EmbedField "Stock"
                    ("**" +:+ pretty (stock_qty p) +:+ "** available") true;
                  EmbedField "Price" (price p) true])).
Proof.
  assert (snapshot_wf (load_known_products (tracked "OP01" 0))) as H1
    by (apply (bool_decide_unpack _); vm_compute; exact I).
  exact (conj H1 (event_detail_fields sample_webhook sample_time
    always_delivered (tracked "OP01" 0) [card "OP01" 5] 3066993%Z H1)).
Defined.

Lemma ill_typed_stored_stock_raises_witness :
  ([card "OP01" 5] !! 0 = Some (card "OP01" 5))
  ∧   (sku (card "OP01" 5) ≠ "")
  ∧   (load_known_products damaged_file !! sku (card "OP01" 5) = Some
    damaged_entry)
  ∧   (damaged_entry !! "stock_qty" = Some (VStr "many"))
  ∧   ((∀ z, (VStr "many") ≠ VInt z))
  ∧ (main sample_webhook sample_time always_delivered damaged_file [card
    "OP01" 5] = Raise TypeError).
Proof.
  assert ([card "OP01" 5] !! 0 = Some (card "OP01" 5)) as H1
    by (reflexivity).
  assert (sku (card "OP01" 5) ≠ "") as H2
    by (done).
  assert (load_known_products damaged_file !! sku (card "OP01" 5) = Some
    damaged_entry) as H3
    by (vm_compute; reflexivity).
  assert (damaged_entry !! "stock_qty" = Some (VStr "many")) as H4
    by (vm_compute; reflexivity).
  assert ((∀ z, (VStr "many") ≠ VInt z)) as H5
    by (done).
  exact (conj H1 (conj H2 (conj H3 (conj H4 (conj H5
    (ill_typed_stored_stock_raises sample_webhook sample_time always_delivered
    damaged_file [card "OP01" 5] 0 (card "OP01" 5) damaged_entry (VStr "many")
    H1 H2 H3 H4 H5)))))).
Defined.


Lemma relisted_key_alerts_as_new_witness :
  (snapshot_wf (load_known_products (tracked "OP02" 2)))
  ∧   (keys [card "OP01" 1] ≠ [])
  ∧   (sku (card "OP02" 4) ∉ keys [card "OP01" 1])
  ∧   ([card "OP02" 4] !! 0 = Some (card "OP02" 4))
  ∧   (sku (card "OP02" 4) ≠ "")
  ∧   ((0 < stock_qty (card "OP02" 4))%Z)
  ∧ (∃ out1 out2,
    main sample_webhook sample_time always_delivered (tracked "OP02" 2)
      [card "OP01" 1] = Ok out1
    ∧ main sample_webhook sample_time always_delivered (out_file out1) [card
      "OP02" 4] = Ok out2
    ∧ 0 ∈ new_products (out_state out2)
    ∧ (0 ∉ restocked (out_state out2))
    ∧ (0 ∉ increased_stock (out_state out2))).
Proof.
  assert (snapshot_wf (load_known_products (tracked "OP02" 2))) as H1
    by (apply (bool_decide_unpack _); vm_compute; exact I).
  assert (keys [card "OP01" 1] ≠ []) as H2
    by (apply (bool_decide_unpack _); vm_compute; exact I).
  assert (sku (card "OP02" 4) ∉ keys [card "OP01" 1]) as H3
    by (apply (bool_decide_unpack _); vm_compute; exact I).
  assert ([card "OP02" 4] !! 0 = Some (card "OP02" 4)) as H4
    by (reflexivity).
  assert (sku (card "OP02" 4) ≠ "") as H5
    by (done).
  assert ((0 < stock_qty (card "OP02" 4))%Z) as H6
    by (reflexivity).
  exact (conj H1 (conj H2 (conj H3 (conj H4 (conj H5 (conj H6
    (relisted_key_alerts_as_new sample_webhook sample_time always_delivered
    (tracked "OP02" 2) [card "OP01" 1] [card "OP02" 4] 0 (card "OP02" 4) H1 H2
    H3 H4 H5 H6))))))).
Defined.

Lemma fetch_without_skus_resets_baseline_witness :
  (snapshot_wf (load_known_products (tracked "OP01" 3)))
  ∧   ([card "" 2] ≠ [])
  ∧   (Forall (λ p, sku p = "") [card "" 2])
  ∧ (∃ out1 out2,
    main sample_webhook sample_time always_delivered (tracked "OP01" 3)
      [card "" 2] = Ok out1
    ∧ load_known_products (out_file out1) = ∅
    ∧ restocked (out_state out1) ++ increased_stock (out_state out1)
      ++ new_products (out_state out1) = []
    ∧ main sample_webhook sample_time always_delivered (out_file out1) [card
      "OP01" 9] = Ok out2
    ∧ restocked (out_state out2) ++ increased_stock (out_state out2)
      ++ new_products (out_state out2) = []
    ∧ out_posts out2 = []).
Proof.
  assert (snapshot_wf (load_known_products (tracked "OP01" 3))) as H1
    by (apply (bool_decide_unpack _); vm_compute; exact I).
  assert ([card "" 2] ≠ []) as H2
    by (done).
  assert (Forall (λ p, sku p = "") [card "" 2]) as H3
    by (apply (bool_decide_unpack _); vm_compute; exact I).
  exact (conj H1 (conj H2 (conj H3 (fetch_without_skus_resets_baseline
    sample_webhook sample_time always_delivered (tracked "OP01" 3) [card "" 2]
    [card "OP01" 9] H1 H2 H3)))).
Defined.

Lemma events_keep_fetch_order_witness :
  (snapshot_wf (load_known_products (tracked "OP01" 0)))
  ∧ (∃ out, main sample_webhook sample_time always_delivered (tracked "OP01"
    0) [card "OP01" 5; card "OP02" 1] = Ok out
    ∧ StronglySorted lt (restocked (out_state out))
    ∧ StronglySorted lt (increased_stock (out_state out))
    ∧ StronglySorted lt (new_products (out_state out))
    ∧ Forall (λ i, i < length [card "OP01" 5; card "OP02" 1])
             (restocked (out_state out) ++ increased_stock (out_state out)
              ++ new_products (out_state out))
    ∧ length (objs (out_state out)) = length [card "OP01" 5; card "OP02" 1]).
Proof.
  assert (snapshot_wf (load_known_products (tracked "OP01" 0))) as H1
    by (apply (bool_decide_unpack _); vm_compute; exact I).
  exact (conj H1 (events_keep_fetch_order sample_webhook sample_time
    always_delivered (tracked "OP01" 0) [card "OP01" 5; card "OP02" 1] H1)).
Defined.

Lemma next_cycle_compares_with_last_fetch_witness :
  (snapshot_wf (load_known_products NoFile))
  ∧   (last (filter (λ r, sku r = sku (card "OP01" 6)) [card "OP01" 0]) =
    Some (card "OP01" 0))
  ∧   ([card "OP01" 6] !! 0 = Some (card "OP01" 6))
  ∧   (sku (card "OP01" 6) ≠ "")
  ∧ (∃ out1 out2,
    main sample_webhook sample_time always_delivered NoFile [card "OP01" 0]
      = Ok out1
    ∧ main sample_webhook sample_time always_delivered (out_file out1) [card
      "OP01" 6] = Ok out2
    ∧ (0 ∈ restocked (out_state out2)
       ↔ (stock_qty (card "OP01" 0) = 0 ∧ 0 < stock_qty (card "OP01" 6))%Z)
    ∧ (0 ∈ increased_stock (out_state out2)
       ↔ (0 < stock_qty (card "OP01" 0) ∧ stock_qty (card "OP01" 0) <
         stock_qty (card "OP01" 6))%Z)
    ∧ (0 ∉ new_products (out_state out2))).
Proof.
  assert (snapshot_wf (load_known_products NoFile)) as H1
    by (apply (bool_decide_unpack _); vm_compute; exact I).
  assert (last (filter (λ r, sku r = sku (card "OP01" 6)) [card "OP01" 0]) =
    Some (card "OP01" 0)) as H2
    by (vm_compute; reflexivity).
  assert ([card "OP01" 6] !! 0 = Some (card "OP01" 6)) as H3
    by (reflexivity).
  assert (sku (card "OP01" 6) ≠ "") as H4
    by (done).
  exact (conj H1 (conj H2 (conj H3 (conj H4
    (next_cycle_compares_with_last_fetch sample_webhook sample_time
    always_delivered NoFile [card "OP01" 0] [card "OP01" 6] (card "OP01" 0) 0
    (card "OP01" 6) H1 H2 H3 H4))))).
Defined.

Lemma unfetched_ill_typed_entries_are_dropped_witness :
  ([card "OP02" 5] ≠ [])
  ∧   ((∀ p d v, p ∈ [card "OP02" 5]
     → load_known_products damaged_file !! sku p = Some d
     → d !! "stock_qty" = Some v → ∃ z, v = VInt z))
  ∧ (∃ out, main sample_webhook sample_time always_delivered damaged_file
    [card "OP02" 5] = Ok out
    ∧ snapshot_wf (load_known_products (out_file out))
    ∧ (∀ k, is_Some (load_known_products (out_file out) !! k)
            ↔ k ∈ keys [card "OP02" 5])).
Proof.
  assert ([card "OP02" 5] ≠ []) as H1
    by (done).
  assert ((∀ p d v, p ∈ [card "OP02" 5]
     → load_known_products damaged_file !! sku p = Some d
     → d !! "stock_qty" = Some v → ∃ z, v = VInt z)) as H2
    by (intros p d v Hp Hd; apply list_elem_of_singleton in Hp as ->;
        vm_compute in Hd; discriminate).
  exact (conj H1 (conj H2 (unfetched_ill_typed_entries_are_dropped
    sample_webhook sample_time always_delivered damaged_file [card "OP02" 5]
    H1 H2))).
Defined.
